(** * s3-extend gateways: the Picoboard polling loop and the sonar timer

  A shallow embedding of [s3_extend/gateways/picoboard_gateway.py]
  (methods [analog_scaling] and [run] of [PicoboardGateway]) and of
  [s3_extend/gateways/sonar.py] (class [Sonar]).

  Python [int]s are [Z]; Python [float]s are IEEE 754 binary64 values,
  taken from the Standard Library's executable specification
  [SpecFloat] at precision 53 and maximal exponent 1024; [bytes] are
  lists of [Byte.byte]; exceptions are [None] in the option monad. *)

From Stdlib Require Import ZArith Lia Bool List.
From Stdlib Require Import Floats.SpecFloat.
From Stdlib.Strings Require Byte.
From stdpp Require Import base option list gmap strings.

Local Open Scope Z_scope.

(** ** Python numbers *)

Module PyFloat.

Definition prec : Z := 53.
Definition emax : Z := 1024.

Abbreviation float := spec_float.

(** [float(z)] for a Python int, as when an int meets a float in an
    arithmetic operation; the conversion is exact below 2^53, and the
    ints of the modelled code are far below that. *)
Definition of_int (z : Z) : float := binary_normalize prec emax z 0 false.

Definition mul : float -> float -> float := SFmul prec emax.
Definition add : float -> float -> float := SFadd prec emax.
Definition sub : float -> float -> float := SFsub prec emax.

(** [x / y] on floats; Python raises ZeroDivisionError on a zero
    divisor. *)
Definition div (x y : float) : option float :=
  match y with
  | S754_zero _ => None
  | _ => Some (SFdiv prec emax x y)
  end.

(** [x > y]. *)
Definition gtb (x y : float) : bool := SFltb y x.

(** The integer part and the remainder, in units of [2^-k], of the
    magnitude [m * 2^e]. *)
Definition magnitude_split (m : positive) (e : Z) : Z * Z * Z :=
  if 0 <=? e then (Z.pos m * 2 ^ e, 0, 1)
  else let d := 2 ^ (- e) in (Z.pos m / d, Z.pos m mod d, d).

(** [round(x)] with one argument: the nearest int, ties to even;
    raises on infinities and NaN. *)
Definition round (x : float) : option Z :=
  match x with
  | S754_zero _ => Some 0
  | S754_finite s m e =>
      let '(q, r, d) := magnitude_split m e in
      let n := match 2 * r ?= d with
               | Lt => q
               | Eq => if Z.even q then q else q + 1
               | Gt => q + 1
               end in
      Some (cond_Zopp s n)
  | _ => None
  end.

(** [int(x)]: truncation towards zero; raises on infinities and NaN. *)
Definition to_int (x : float) : option Z :=
  match x with
  | S754_zero _ => Some 0
  | S754_finite s m e =>
      let '(q, _, _) := magnitude_split m e in Some (cond_Zopp s q)
  | _ => None
  end.

(** [a / b] on two Python ints (true division). *)
Definition int_truediv (a b : Z) : option float := div (of_int a) (of_int b).

End PyFloat.

(** A value a Python variable of the modelled code may hold. *)
Inductive pyval :=
| PyNone
| PyInt (z : Z)
| PyFloat (f : PyFloat.float).

(** ** Exact arithmetic, for the formulas of the specification *)

(** The integer nearest to the rational [a / b], ties to even. *)
Definition round_ratio (a b : Z) : Z :=
let '(a, b) := if b <? 0 then (- a, - b) else (a, b) in
let q := a / b in
let r := a mod b in
match 2 * r ?= b with
| Lt => q
| Eq => if Z.even q then q else q + 1
| Gt => q + 1
end.

(** [floor (a / b)]. *)
Definition floor_ratio (a b : Z) : Z := a / b.

(** ** picoboard_gateway.py *)

Module Picoboard.

(** [int(b)] for one element of a [bytes] object. *)
Definition byte_val (b : Byte.byte) : Z := Z.of_N (Byte.to_N b).

(** [int(self.data_packet[k])]; an IndexError is [None]. *)
Definition get_byte (pkt : list Byte.byte) (k : nat) : option Z :=
  byte_val <$> pkt !! k.

(** Fields set by [__init__]. *)
Definition analog_sensor_list : list nat := [1; 2; 3; 5; 7; 8]%nat.
Definition button_position : nat := 4.
Definition light_position : nat := 6.
Definition sound_position : nat := 7.
Definition inverted_analog_list : list nat := [1; 2; 3; 5]%nat.
Definition poll_byte : Byte.byte := Byte.x01.

(** [i in l] on a list of ints. *)
Definition mem (i : nat) (l : list nat) : bool := existsb (Nat.eqb i) l.

(** [analog_scaling(self, value, index)]. *)
Definition analog_scaling (value : Z) (index : nat) : option Z :=
  let '(input_low, input_high) :=
    if Nat.eqb index light_position then (0, 100)
    else if mem index inverted_analog_list then (1023, 0)
    else (0, 1023) in
  let new_value_low := 0 in
  let new_value_high := 100 in
  slope ← PyFloat.int_truediv (new_value_high - new_value_low)
                              (input_high - input_low);
  PyFloat.round
    (PyFloat.add
       (PyFloat.mul (PyFloat.of_int (value - input_low)) slope)
       (PyFloat.of_int new_value_low)).

(** How one pass through the body of the [for] loop of [run] ends. *)
Inductive flow := Fallthrough | Continue | Break.

(** The variables the [for] loop of [run] updates: the local [cooked]
    and the list [self.payload['report']]. *)
Record locals := Locals { cooked : pyval; report : list pyval }.

(** The test on the first channel ([if i == 0:] at the top of the loop
    body). *)
Definition check_first (pkt : list Byte.byte) : option flow :=
  b0 ← get_byte pkt 0;
  let pico_channel := Z.shiftr (b0 - 128) 3 in
  if negb (pico_channel =? 15) && negb (pico_channel =? 0) then Some Continue
  else
    pico_data ← get_byte pkt 1;
    if negb (pico_data =? 4) then Some Break else Some Fallthrough.

(** [raw_sensor_value] of entry [i]. *)
Definition raw_sensor_value (pkt : list Byte.byte) (i : nat) : option Z :=
  hi ← get_byte pkt (2 * i);
  lo ← get_byte pkt (2 * i + 1);
  Some (Z.shiftl (Z.land hi 7) 7 + lo).

(** The [if i == 0: ... elif ...] chain followed by
    [if i in self.analog_sensor_list:]; [prev] is the value of [cooked]
    on entry. *)
Definition cook (i : nat) (raw : Z) (prev : pyval) : option pyval :=
  cooked1 ←
    (if Nat.eqb i 0 then Some (PyInt raw)
     else if Nat.eqb i light_position then
       c ← (if raw <? 25 then Some (100 - raw)
            else
              k ← PyFloat.int_truediv 75 998;
              PyFloat.round (PyFloat.mul (PyFloat.of_int (1023 - raw)) k));
       PyInt <$> analog_scaling c light_position
     else if Nat.eqb i sound_position then
       let n := Z.max 0 (raw - 18) in
       if n <? 50 then
         h ← PyFloat.int_truediv n 2;
         PyInt <$> PyFloat.to_int h
       else
         k ← PyFloat.int_truediv 75 580;
         t ← PyFloat.to_int (PyFloat.mul (PyFloat.of_int (n - 50)) k);
         Some (PyInt (25 + Z.min 75 t))
     else if Nat.eqb i button_position then
       Some (PyInt (if raw =? 0 then 1 else 0))
     else Some prev);
  if mem i analog_sensor_list then PyInt <$> analog_scaling raw i
  else Some cooked1.

(** The body of [for i in range(9):]. *)
Definition entry (pkt : list Byte.byte) (i : nat) (s : locals)
  : option (flow * locals) :=
  fl ← (if Nat.eqb i 0 then check_first pkt else Some Fallthrough);
  match fl with
  | Fallthrough =>
      raw ← raw_sensor_value pkt i;
      c ← cook i raw (cooked s);
      Some (Fallthrough,
            Locals c (if negb (Nat.eqb i 0) then report s ++ [c]
                      else report s))
  | _ => Some (fl, s)
  end.

(** A [for] loop over the indices [l], with [continue] and [break]. *)
Fixpoint for_each {S : Type} (body : nat -> S -> option (flow * S))
  (l : list nat) (s : S) : option S :=
  match l with
  | [] => Some s
  | i :: rest =>
      match body i s with
      | None => None
      | Some (Break, s') => Some s'
      | Some (_, s') => for_each body rest s'
      end
  end.

(** The gateway object together with what it has sent: the report list
    of [self.payload], the [publish_payload] calls made so far (payload
    and topic, oldest first) and the bytes written to the serial port. *)
Record gateway := Gateway {
  publisher_topic : string;
  payload : list pyval;
  published : list (list pyval * string);
  serial_out : list Byte.byte
}.

(** One turn of [while True:] in [run], for the 18 bytes [pkt] returned
    by [self.picoboard.read(18)]. *)
Definition cycle (pkt : list Byte.byte) (g : gateway) : option gateway :=
  s ← for_each (entry pkt) (seq 0 9) (Locals PyNone (payload g));
  Some (Gateway (publisher_topic g)
                []
                (published g ++ [(report s, publisher_topic g)])
                (serial_out g ++ [poll_byte])).

(** [run], for the packets the board answers with, in order. *)
Definition poll (g : gateway) : gateway :=
  Gateway (publisher_topic g) (payload g) (published g)
          (serial_out g ++ [poll_byte]).

Fixpoint cycles (pkts : list (list Byte.byte)) (g : gateway)
  : option gateway :=
  match pkts with
  | [] => Some g
  | pkt :: rest => g' ← cycle pkt g; cycles rest g'
  end.

Definition run (pkts : list (list Byte.byte)) (g : gateway)
  : option gateway :=
  cycles pkts (poll g).

(** The gateway as [__init__] leaves it. *)
Definition init (topic : string) : gateway := Gateway topic [] [] [].

(** A packet from the values of its bytes (values outside [0, 255]
    become 0). *)
Definition packet (l : list Z) : list Byte.byte :=
  map (fun z => default Byte.x00 (Byte.of_N (Z.to_N z))) l.

End Picoboard.

(** ** sonar.py *)

Module Sonar.

Import PyFloat.

(** pigpio's mode constants [pigpio.INPUT] and [pigpio.OUTPUT]. *)
Definition INPUT : Z := 0.
Definition OUTPUT : Z := 1.

(** The [pi] object and the world behind it: the mode of every GPIO,
    the [set_mode] and [gpio_trigger] calls made so far (oldest first),
    the levels the successive [pi.read] calls will find on the echo
    line ([true] is high) and the values the successive [time.time()]
    calls will return.  A call that finds its list empty has no answer
    in this world ([None]). *)
Record pi := Pi {
  modes : gmap nat Z;
  mode_calls : list (nat * Z);
  pulses : list (nat * Z * Z);
  levels : list bool;
  clock : list float
}.

(** [pi.get_mode(gpio)]; pigpio raises on a GPIO it does not know. *)
Definition get_mode (gpio : nat) (p : pi) : option Z := modes p !! gpio.

(** [pi.set_mode(gpio, mode)]. *)
Definition set_mode (gpio : nat) (mode : Z) (p : pi) : pi :=
  Pi (<[gpio := mode]> (modes p)) (mode_calls p ++ [(gpio, mode)])
     (pulses p) (levels p) (clock p).

(** [pi.gpio_trigger(gpio, pulse_len, level)]. *)
Definition gpio_trigger (gpio : nat) (pulse_len level : Z) (p : pi) : pi :=
  Pi (modes p) (mode_calls p) (pulses p ++ [(gpio, pulse_len, level)])
     (levels p) (clock p).

(** [time.time()]. *)
Definition time (p : pi) : option (float * pi) :=
  match clock p with
  | [] => None
  | t :: rest => Some (t, Pi (modes p) (mode_calls p) (pulses p) (levels p) rest)
  end.

(** The fields of a [Sonar] object. *)
Record sonar := SonarObj {
  _trig : nat;
  _echo : nat;
  _trig_mode : Z;
  _echo_mode : Z;
  _inited : bool
}.

(** [Sonar.__init__(self, pi, trigger, echo)]. *)
Definition __init__ (p : pi) (trigger echo : nat) : option (sonar * pi) :=
  trig_mode ← get_mode trigger p;
  echo_mode ← get_mode echo p;
  let p := set_mode trigger OUTPUT p in
  let p := set_mode echo INPUT p in
  Some (SonarObj trigger echo trig_mode echo_mode true, p).

(** The float a decimal literal [n / 10^k] denotes (the nearest one). *)
Definition decimal (n : Z) (k : Z) : float :=
  SFdiv prec emax (of_int n) (of_int (10 ^ k)).

(** The literal [0.03]. *)
Definition timeout : float := decimal 3 2.

(** What a [while] loop of [read] does: it runs to its end, or the
    method returns from inside it. *)
Inductive loop_exit := Done | Return (v : pyval).

(** [while not self.pi.read(self._echo): ...], by recursion on the
    levels still to be read; [t3] is the time taken before the loop. *)
Fixpoint await_high (t3 : float) (lv : list bool) (ck : list float)
  : option (loop_exit * list bool * list float) :=
  match lv with
  | [] => None
  | true :: lv' => Some (Done, lv', ck)
  | false :: lv' =>
      match ck with
      | [] => None
      | t4 :: ck' =>
          if gtb (sub t4 t3) timeout then Some (Return (PyInt (-1)), lv', ck')
          else await_high t3 lv' ck'
      end
  end.

(** [while self.pi.read(self._echo): ...]; [t1] is the time taken before
    the loop. *)
Fixpoint await_low (t1 : float) (lv : list bool) (ck : list float)
  : option (loop_exit * list bool * list float) :=
  match lv with
  | [] => None
  | false :: lv' => Some (Done, lv', ck)
  | true :: lv' =>
      match ck with
      | [] => None
      | t5 :: ck' =>
          if gtb (sub t5 t1) timeout then Some (Return (PyInt (-2)), lv', ck')
          else await_low t1 lv' ck'
      end
  end.

(** [((t2-t1) * 340 / 2) * 100]. *)
Definition distance (t1 t2 : float) : option float :=
  half ← div (mul (sub t2 t1) (of_int 340)) (of_int 2);
  Some (mul half (of_int 100)).

Definition with_trace (p : pi) (lv : list bool) (ck : list float) : pi :=
  Pi (modes p) (mode_calls p) (pulses p) lv ck.

(** [Sonar.read(self)]. *)
Definition read (s : sonar) (p : pi) : option (pyval * pi) :=
  let p := gpio_trigger (_trig s) 15 1 p in
  '(t3, p) ← time p;
  '(e, lv, ck) ← await_high t3 (levels p) (clock p);
  let p := with_trace p lv ck in
  match e with
  | Return v => Some (v, p)
  | Done =>
      '(t1, p) ← time p;
      '(e, lv, ck) ← await_low t1 (levels p) (clock p);
      let p := with_trace p lv ck in
      match e with
      | Return v => Some (v, p)
      | Done =>
          '(t2, p) ← time p;
          d ← distance t1 t2;
          Some (PyFloat d, p)
      end
  end.

(** [Sonar.cancel(self)]. *)
Definition cancel (s : sonar) (p : pi) : sonar * pi :=
  if _inited s then
    let s' := SonarObj (_trig s) (_echo s) (_trig_mode s) (_echo_mode s)
                       false in
    let p := set_mode (_trig s) (_trig_mode s) p in
    let p := set_mode (_echo s) (_echo_mode s) p in
    (s', p)
  else (s, p).

End Sonar.

(** ** The formulas of the specification, in exact arithmetic *)

Module Spec.

Import Picoboard.

(** The light curve: [100 - raw] below 25, else
    [round((1023 - raw) * 75/998)]. *)
Definition light_curve (raw : Z) : Z :=
  if raw <? 25 then 100 - raw else round_ratio ((1023 - raw) * 75) 998.

(** The sound curve: with [n = max(0, raw - 18)], [floor(n / 2)] when
    [n < 50], else [25 + min(75, floor((n - 50) * 75/580))]. *)
Definition sound_curve (raw : Z) : Z :=
  let n := Z.max 0 (raw - 18) in
  if n <? 50 then floor_ratio n 2
  else 25 + Z.min 75 (floor_ratio ((n - 50) * 75) 580).

(** The affine rescale from [0, 1023] to [0, 100]:
    [round(raw * 100/1023)]. *)
Definition scale_direct (raw : Z) : Z := round_ratio (raw * 100) 1023.

(** The affine rescale from the inverted domain [1023, 0]:
    [round((raw - 1023) * (100/(0 - 1023)) + 0)]. *)
Definition scale_inverted (raw : Z) : Z :=
  round_ratio ((raw - 1023) * 100) (0 - 1023) + 0.

(** The logical negation of a raw button value. *)
Definition button_negation (raw : Z) : Z := if raw =? 0 then 1 else 0.

(** The value [run] appends for entry [i], as a closed form. *)
Definition appended (i : nat) (raw : Z) : Z :=
  if Nat.eqb i button_position then button_negation raw
  else if Nat.eqb i light_position then light_curve raw
  else if mem i inverted_analog_list then scale_inverted raw
  else scale_direct raw.

(** [raw_sensor_value] as a total function (0 where the packet is too
    short). *)
Definition raw_at (pkt : list Byte.byte) (i : nat) : Z :=
  default 0 (raw_sensor_value pkt i).

(** Step 1 of the packet decoder: [channelId = (frame[0] - 128) >> 3]
    and [idValue = frame[1]]. *)
Definition channel_id (pkt : list Byte.byte) : option Z :=
  b0 ← get_byte pkt 0; Some (Z.shiftr (b0 - 128) 3).

Definition id_value (pkt : list Byte.byte) : option Z := get_byte pkt 1.

(** The first entry stops the decoding of the packet. *)
Definition stopped (pkt : list Byte.byte) : bool :=
  match check_first pkt with
  | Some Break => true
  | _ => false
  end.

(** The report [run] publishes for a packet, as a closed form. *)
Definition expected_report (pkt : list Byte.byte) : list pyval :=
  if stopped pkt then []
  else map (fun i => PyInt (appended i (raw_at pkt i))) (seq 1 8).

(** [cook] agrees with [appended] at entry [i] and raw value [raw]. *)
Definition cook_agrees (i : nat) (raw : Z) : bool :=
  match cook i raw PyNone with
  | Some (PyInt z) => z =? appended i raw
  | _ => false
  end.

(** A value lies in [0, 100]. *)
Definition percent (v : pyval) : Prop :=
  match v with
  | PyInt z => 0 <= z <= 100
  | _ => False
  end.

(** [appended] stays within [0, 100] at entry [i] and raw value [raw]. *)
Definition appended_percent (i : nat) (raw : Z) : bool :=
  (0 <=? appended i raw) && (appended i raw <=? 100).

(** The integers from [0] to [n - 1]. *)
Definition upto (n : nat) : list Z := map Z.of_nat (seq 0 n).

End Spec.

(** ** picoboard_gateway.py: looking for the board *)

Module Discovery.

Import Picoboard.

(** A serial port as [list_ports.comports()] describes it, with what the
    device behind it will show: each element of [line] is what one turn
    of the [while not_done:] loop finds, the value of [in_waiting] and
    the bytes a [read(18)] made in that turn returns. *)
Record port := Port {
  pid : option Z;
  device : string;
  line : list (nat * list Byte.byte)
}.

(** What the search has done to the outside: the devices opened with
    [serial.Serial] (oldest first; [self.picoboard] is the last one) and
    the device of every poll byte written. *)
Record probe := Probe {
  opened : list string;
  polled : list string
}.

Definition open_port (dev : string) (st : probe) : probe :=
  Probe (opened st ++ [dev]) (polled st).

Definition write_poll (dev : string) (st : probe) : probe :=
  Probe (opened st) (polled st ++ [dev]).

(** The [while not_done:] loop, by recursion on what the line still has
    to show; the result is the value returned from inside the loop. *)
Fixpoint await_packet (dev : string) (turns : list (nat * list Byte.byte))
  (st : probe) : option (bool * probe) :=
  match turns with
  | [] => None
  | (num_bytes, data_packet) :: rest =>
      if (num_bytes <? 18)%nat then await_packet dev rest (write_poll dev st)
      else
        b0 ← get_byte data_packet 0;
        let pico_channel := Z.shiftr (b0 - 128) 3 in
        if negb (pico_channel =? 15) && negb (pico_channel =? 0)
        then await_packet dev rest st
        else
          pico_data ← get_byte data_packet 1;
          if negb (pico_data =? 4) then Some (false, st)
          else Some (true, st)
  end.

(** [find_the_picoboard(self)], for the ports [comports()] lists; the
    value is [Some true], [Some false], or [None] when the [for] loop
    runs to its end and the method returns nothing. *)
Fixpoint find_the_picoboard (the_ports_list : list port) (st : probe)
  : option (option bool * probe) :=
  match the_ports_list with
  | [] => Some (None, st)
  | p :: rest =>
      match pid p with
      | None => find_the_picoboard rest st
      | Some _ =>
          let st := open_port (device p) st in
          let st := write_poll (device p) st in
          '(r, st) ← await_packet (device p) (line p) st;
          Some (Some r, st)
      end
  end.

(** A turn of the loop that does not end it: fewer than 18 bytes are
    waiting, or the 18 bytes read start with a channel other than 0
    and 15. *)
Definition idle_turn (t : nat * list Byte.byte) : Prop :=
  (t.1 < 18)%nat \/
  exists c, Spec.channel_id t.2 = Some c /\ c <> 0 /\ c <> 15.

(** The turns that find fewer than 18 bytes waiting. *)
Definition short_turns (turns : list (nat * list Byte.byte)) : nat :=
  length (filter (fun t => (t.1 < 18)%nat) turns).

End Discovery.

(** ** Parts of [run] and of [Sonar] taken on their own *)

Module Parts.

Import PyFloat Picoboard Sonar.

(** The branch [elif i == self.sound_position:] of [run]. *)
Definition sound_branch (raw : Z) : option pyval :=
  let n := Z.max 0 (raw - 18) in
  if n <? 50 then
    h ← PyFloat.int_truediv n 2;
    PyInt <$> PyFloat.to_int h
  else
    k ← PyFloat.int_truediv 75 580;
    t ← PyFloat.to_int (PyFloat.mul (PyFloat.of_int (n - 50)) k);
    Some (PyInt (25 + Z.min 75 t)).

(** [n] calls of [read] in a row, with the values they return. *)
Fixpoint reads (n : nat) (s : sonar) (p : pi) : option (list pyval * pi) :=
  match n with
  | O => Some ([], p)
  | S n' =>
      '(v, p) ← read s p;
      '(vs, p) ← reads n' s p;
      Some (v :: vs, p)
  end.

(** A value is a Python int. *)
Definition is_int (v : pyval) : Prop :=
  match v with
  | PyInt _ => True
  | _ => False
  end.

(** The sound branch gives the sound curve, within [0, 100], at [raw]. *)
Definition sound_branch_agrees (raw : Z) : bool :=
  match sound_branch raw with
  | Some (PyInt z) =>
      (z =? Spec.sound_curve raw) && (0 <=? z) && (z <=? 100)
  | _ => false
  end.

End Parts.

Import PyFloat Picoboard Sonar Spec.

(** ** Ranges and tables *)

Lemma upto_complete (P : Z -> bool) (n : nat) :
  forallb P (upto n) = true ->
  forall z, 0 <= z < Z.of_nat n -> P z = true.
Proof.
  intros Hall z Hz.
  rewrite forallb_forall in Hall.
  apply Hall. unfold upto.
  apply in_map_iff. exists (Z.to_nat z). split; [lia|].
  apply in_seq. lia.
Qed.

Lemma byte_val_range (b : Byte.byte) : 0 <= byte_val b <= 255.
Proof.
  unfold byte_val. pose proof (Byte.to_N_bounded b). lia.
Qed.

Lemma get_byte_Some (pkt : list Byte.byte) (k : nat) :
  (k < length pkt)%nat ->
  exists b, get_byte pkt k = Some b /\ 0 <= b <= 255.
Proof.
  intros Hk. unfold get_byte.
  destruct (lookup_lt_is_Some_2 pkt k Hk) as [b Hb].
  exists (byte_val b). rewrite Hb. split; [reflexivity | apply byte_val_range].
Qed.

Lemma raw_range (hi lo : Z) :
  0 <= lo <= 255 -> 0 <= Z.shiftl (Z.land hi 7) 7 + lo <= 1151.
Proof.
  intros Hlo.
  assert (Z.shiftl (Z.land hi 7) 7 = hi mod 8 * 128) as ->.
  { change (Z.land hi 7) with (Z.land hi (Z.ones 3)).
    rewrite Z.land_ones by lia. by rewrite Z.shiftl_mul_pow2 by lia. }
  pose proof (Z.mod_pos_bound hi 8 eq_refl). lia.
Qed.

Lemma raw_sensor_value_Some (pkt : list Byte.byte) (i : nat) :
  length pkt = 18%nat -> (i < 9)%nat ->
  exists raw, raw_sensor_value pkt i = Some raw /\ 0 <= raw <= 1151.
Proof.
  intros Hlen Hi. unfold raw_sensor_value.
  destruct (get_byte_Some pkt (2 * i)) as (hi & -> & _); [lia|].
  destruct (get_byte_Some pkt (2 * i + 1)) as (lo & -> & Hlo); [lia|].
  simpl. eexists. split; [reflexivity|]. by apply raw_range.
Qed.

Lemma cook_table :
  forallb (fun i => forallb (cook_agrees i) (upto 1152)) (seq 1 8) = true.
Proof. vm_compute. reflexivity. Qed.

Lemma cook_prev (i : nat) (raw : Z) (prev : pyval) :
  (1 <= i <= 8)%nat -> cook i raw prev = cook i raw PyNone.
Proof.
  intros Hi.
  do 9 (destruct i as [|i]; [first [lia | reflexivity]|]). lia.
Qed.

Lemma cook_closed (i : nat) (raw : Z) (prev : pyval) :
  (1 <= i <= 8)%nat -> 0 <= raw <= 1151 ->
  cook i raw prev = Some (PyInt (appended i raw)).
Proof.
  intros Hi Hraw. rewrite cook_prev by done.
  pose proof cook_table as Htab. rewrite forallb_forall in Htab.
  assert (In i (seq 1 8)) as Hin by (apply in_seq; lia).
  apply Htab in Hin.
  assert (cook_agrees i raw = true) as Hok
    by (apply (upto_complete _ _ Hin raw); lia).
  unfold cook_agrees in Hok.
  destruct (cook i raw PyNone) as [[|z|]|]; try discriminate.
  apply Z.eqb_eq in Hok. by subst.
Qed.

Lemma check_first_Some (pkt : list Byte.byte) :
  length pkt = 18%nat -> exists fl, check_first pkt = Some fl.
Proof.
  intros Hlen. unfold check_first.
  destruct (get_byte_Some pkt 0) as (b0 & -> & _); [lia|].
  destruct (get_byte_Some pkt 1) as (b1 & -> & _); [lia|].
  simpl.
  destruct (negb _ && negb _); [by eexists|].
  destruct (negb _); by eexists.
Qed.

Lemma entry_sensor (pkt : list Byte.byte) (i : nat) (s : locals) :
  length pkt = 18%nat -> (1 <= i <= 8)%nat ->
  entry pkt i s =
    Some (Fallthrough,
          Locals (PyInt (appended i (raw_at pkt i)))
                 (report s ++ [PyInt (appended i (raw_at pkt i))])).
Proof.
  intros Hlen Hi. unfold entry, raw_at.
  destruct (raw_sensor_value_Some pkt i) as (raw & -> & Hraw); [done|lia|].
  destruct i as [|i]; [lia|]. simpl.
  rewrite cook_closed by (done || lia). reflexivity.
Qed.

Lemma entry_first (pkt : list Byte.byte) (s : locals) :
  length pkt = 18%nat ->
  exists fl s',
    entry pkt 0 s = Some (fl, s') /\ report s' = report s /\
    (fl = Break <-> stopped pkt = true).
Proof.
  intros Hlen. unfold entry, stopped.
  destruct (check_first_Some pkt Hlen) as [fl ->]. simpl.
  destruct (raw_sensor_value_Some pkt 0) as (raw & -> & _); [done|lia|].
  destruct fl; simpl; eexists _, _; (split; [reflexivity|]); split;
    try reflexivity; split; congruence.
Qed.

Lemma decode_report (pkt : list Byte.byte) (r0 : list pyval) :
  length pkt = 18%nat ->
  report <$> for_each (entry pkt) (seq 0 9) (Locals PyNone r0)
  = Some (r0 ++ expected_report pkt).
Proof.
  intros Hlen.
  destruct (entry_first pkt (Locals PyNone r0) Hlen)
    as (fl & s' & Hentry & Hrep & Hstop).
  unfold expected_report.
  change (seq 0 9) with (0 :: seq 1 8)%nat.
  cbn [for_each]. rewrite Hentry.
  destruct (stopped pkt) eqn:Hs.
  - destruct Hstop as [_ Hstop]. rewrite (Hstop eq_refl). simpl.
    rewrite Hrep. simpl. by rewrite app_nil_r.
  - assert (for_each (entry pkt) (seq 1 8) s'
            = Some (Locals (PyInt (appended 8 (raw_at pkt 8)))
                      (r0 ++ map (fun i => PyInt (appended i (raw_at pkt i)))
                                 (seq 1 8)))) as Hrest.
    { destruct s' as [c r]. simpl in Hrep. subst r.
      cbn [seq for_each].
      repeat (rewrite entry_sensor by (done || lia); cbn [report]).
      cbn [map]. by rewrite <- !app_assoc. }
    destruct fl; try (rewrite Hrest; reflexivity).
    destruct Hstop as [Hstop _]. specialize (Hstop eq_refl). discriminate.
Qed.

Lemma cycle_spec (pkt : list Byte.byte) (g : gateway) :
  length pkt = 18%nat ->
  cycle pkt g =
    Some (Gateway (publisher_topic g) []
            (published g
               ++ [(payload g ++ expected_report pkt, publisher_topic g)])
            (serial_out g ++ [poll_byte])).
Proof.
  intros Hlen. unfold cycle.
  pose proof (decode_report pkt (payload g) Hlen) as Hdec.
  destruct (for_each _ _ _) as [s|]; [|discriminate].
  simpl in *. congruence.
Qed.

Lemma steps_monotone (f : Z -> Z) (n : Z) :
  (forall z, 0 <= z < n -> f z <= f (z + 1)) ->
  forall a b, 0 <= a -> a <= b -> b <= n -> f a <= f b.
Proof.
  intros Hstep a b Ha Hab Hb.
  assert (forall k : nat, a + Z.of_nat k <= n -> f a <= f (a + Z.of_nat k))
    as Hk.
  { induction k as [|k IH]; intros Hle.
    - rewrite Z.add_0_r. lia.
    - etrans; [apply IH; lia|].
      replace (a + Z.of_nat (S k)) with (a + Z.of_nat k + 1) by lia.
      apply Hstep. lia. }
  replace b with (a + Z.of_nat (Z.to_nat (b - a))) by lia.
  apply Hk. lia.
Qed.

Lemma direct_steps :
  forallb (fun z => scale_direct z <=? scale_direct (z + 1)) (upto 1023)
  = true.
Proof. vm_compute. reflexivity. Qed.

Lemma inverted_steps :
  forallb (fun z => scale_inverted (z + 1) <=? scale_inverted z) (upto 1023)
  = true.
Proof. vm_compute. reflexivity. Qed.

Lemma scale_direct_monotone (a b : Z) :
  0 <= a -> a <= b -> b <= 1023 -> scale_direct a <= scale_direct b.
Proof.
  apply (steps_monotone scale_direct 1023).
  intros z Hz. apply Z.leb_le.
  by apply (upto_complete _ _ direct_steps).
Qed.

Lemma scale_inverted_antitone (a b : Z) :
  0 <= a -> a <= b -> b <= 1023 -> scale_inverted b <= scale_inverted a.
Proof.
  intros Ha Hab Hb.
  enough (- scale_inverted a <= - scale_inverted b) by lia.
  apply (steps_monotone (fun z => - scale_inverted z) 1023); try done.
  intros z Hz.
  pose proof (upto_complete _ _ inverted_steps z Hz) as Hstep.
  apply Z.leb_le in Hstep. lia.
Qed.

Lemma analog_scaling_else (value : Z) (index : nat) :
  index <> light_position -> mem index inverted_analog_list = false ->
  analog_scaling value index = analog_scaling value 8.
Proof.
  intros Hlight Hinv. unfold analog_scaling. rewrite Hinv.
  destruct (Nat.eqb_spec index light_position); [done|reflexivity].
Qed.

Lemma analog_scaling_elif (value : Z) (index : nat) :
  mem index inverted_analog_list = true ->
  analog_scaling value index = analog_scaling value 1.
Proof.
  intros Hinv. unfold analog_scaling. rewrite Hinv.
  destruct (Nat.eqb_spec index light_position) as [->|]; [done|reflexivity].
Qed.

Lemma analog_scaling_slider (r : Z) :
  0 <= r <= 1151 -> analog_scaling r 8 = Some (scale_direct r).
Proof.
  intros Hr. pose proof (cook_closed 8 r PyNone ltac:(lia) Hr) as Hc.
  change (cook 8 r PyNone) with (PyInt <$> analog_scaling r 8) in Hc.
  destruct (analog_scaling r 8); simpl in Hc; [|done].
  by injection Hc as ->.
Qed.

Lemma analog_scaling_D (r : Z) :
  0 <= r <= 1151 -> analog_scaling r 1 = Some (scale_inverted r).
Proof.
  intros Hr. pose proof (cook_closed 1 r PyNone ltac:(lia) Hr) as Hc.
  change (cook 1 r PyNone) with (PyInt <$> analog_scaling r 1) in Hc.
  destruct (analog_scaling r 1); simpl in Hc; [|done].
  by injection Hc as ->.
Qed.

(** ** The scaling engine *)

(** C4: on a channel that is neither the light channel nor an inverted
    one (the slider and the sound channel), [analog_scaling] of a raw
    value in [0, 1023] is [round(r * 100/1023)], and it does not decrease
    when the raw value grows. *)
Theorem analog_scaling_direct (r r' : Z) (index : nat) :
  index <> light_position -> mem index inverted_analog_list = false ->
  0 <= r -> r <= r' -> r' <= 1023 ->
  analog_scaling r index = Some (round_ratio (r * 100) 1023) /\
  analog_scaling r' index = Some (round_ratio (r' * 100) 1023) /\
  round_ratio (r * 100) 1023 <= round_ratio (r' * 100) 1023.
Proof.
  intros Hlight Hinv Hr Hrr Hr'.
  rewrite (analog_scaling_else r), (analog_scaling_else r') by done.
  rewrite !analog_scaling_slider by lia.
  split; [reflexivity|]. split; [reflexivity|].
  by apply scale_direct_monotone.
Qed.

Lemma analog_scaling_direct_witness :
  analog_scaling 511 sound_position = Some 50 /\
  analog_scaling 512 8 = Some 50 /\
  analog_scaling 1023 8 = Some 100.
Proof.
  destruct (analog_scaling_direct 511 512 sound_position) as (H1 & _ & _);
    [discriminate | reflexivity | lia | lia | lia |].
  destruct (analog_scaling_direct 512 1023 8) as (H2 & H3 & _);
    [discriminate | reflexivity | lia | lia | lia |].
  exact (conj H1 (conj H2 H3)).
Defined.

(** C5: on an inverted channel (positions 1, 2, 3 and 5: D, C, B and A),
    [analog_scaling] of a raw value in [0, 1023] is
    [round((r - 1023) * (100/(0 - 1023)) + 0)]; it does not increase
    when the raw value grows, it is 100 at 0 and 0 at 1023. *)
Theorem analog_scaling_inverted (r r' : Z) (index : nat) :
  mem index inverted_analog_list = true ->
  0 <= r -> r <= r' -> r' <= 1023 ->
  analog_scaling r index
    = Some (round_ratio ((r - 1023) * 100) (0 - 1023) + 0) /\
  analog_scaling r' index
    = Some (round_ratio ((r' - 1023) * 100) (0 - 1023) + 0) /\
  round_ratio ((r' - 1023) * 100) (0 - 1023) + 0
    <= round_ratio ((r - 1023) * 100) (0 - 1023) + 0 /\
  analog_scaling 0 index = Some 100 /\
  analog_scaling 1023 index = Some 0.
Proof.
  intros Hinv Hr Hrr Hr'.
  rewrite (analog_scaling_elif r), (analog_scaling_elif r'),
    (analog_scaling_elif 0), (analog_scaling_elif 1023) by done.
  rewrite !analog_scaling_D by lia.
  split; [reflexivity|]. split; [reflexivity|].
  split; [by apply scale_inverted_antitone|].
  split; reflexivity.
Qed.

Lemma analog_scaling_inverted_witness :
  analog_scaling 256 5 = Some 75 /\ analog_scaling 767 5 = Some 25.
Proof.
  destruct (analog_scaling_inverted 256 767 5) as (H1 & H2 & _);
    [reflexivity | lia | lia | lia |].
  exact (conj H1 H2).
Defined.

Lemma light_identity_table :
  forallb (fun c => match analog_scaling c light_position with
                    | Some c' => c' =? c
                    | None => false
                    end) (upto 101) = true.
Proof. vm_compute. reflexivity. Qed.

Lemma percent_table :
  forallb (fun i => forallb (appended_percent i) (upto 1024)) (seq 1 8)
  = true.
Proof. vm_compute. reflexivity. Qed.

Lemma light_scale_identity (c : Z) :
  0 <= c <= 100 -> analog_scaling c light_position = Some c.
Proof.
  intros Hc.
  pose proof (upto_complete _ _ light_identity_table c ltac:(lia)) as Hok.
  simpl in Hok. destruct (analog_scaling c light_position); [|done].
  apply Z.eqb_eq in Hok. by subst.
Qed.

Lemma appended_in_percent (i : nat) (raw : Z) :
  (1 <= i <= 8)%nat -> 0 <= raw <= 1023 -> 0 <= appended i raw <= 100.
Proof.
  intros Hi Hraw.
  pose proof percent_table as Htab. rewrite forallb_forall in Htab.
  assert (In i (seq 1 8)) as Hin by (apply in_seq; lia).
  apply Htab in Hin.
  pose proof (upto_complete _ _ Hin raw ltac:(lia)) as Hok.
  unfold appended_percent in Hok.
  apply andb_true_iff in Hok as [H0 H100].
  apply Z.leb_le in H0, H100. lia.
Qed.

Lemma check_first_skip (pkt : list Byte.byte) (c : Z) :
  channel_id pkt = Some c -> c <> 0 -> c <> 15 ->
  check_first pkt = Some Continue.
Proof.
  unfold channel_id, check_first. intros Hc H0 H15.
  destruct (get_byte pkt 0) as [b0|]; [|done]. simpl in *.
  injection Hc as <-.
  destruct (Z.eqb_spec (Z.shiftr (b0 - 128) 3) 15); [done|].
  destruct (Z.eqb_spec (Z.shiftr (b0 - 128) 3) 0); done.
Qed.

Lemma check_first_id (pkt : list Byte.byte) (c v : Z) :
  channel_id pkt = Some c -> c = 0 \/ c = 15 -> id_value pkt = Some v ->
  check_first pkt = Some (if v =? 4 then Fallthrough else Break).
Proof.
  unfold channel_id, id_value, check_first. intros Hc Hok Hv.
  destruct (get_byte pkt 0) as [b0|]; [|done]. simpl in *.
  injection Hc as <-. rewrite Hv. simpl.
  destruct (Z.eqb_spec (Z.shiftr (b0 - 128) 3) 15) as [E15|N15];
    destruct (Z.eqb_spec (Z.shiftr (b0 - 128) 3) 0) as [E0|N0];
    simpl; try (by destruct (v =? 4)); lia.
Qed.

Lemma cycle_published (pkt : list Byte.byte) (g : gateway) :
  length pkt = 18%nat -> payload g = [] ->
  published <$> cycle pkt g
  = Some (published g ++ [(expected_report pkt, publisher_topic g)]).
Proof.
  intros Hlen Hpay. rewrite cycle_spec by done. simpl. by rewrite Hpay.
Qed.

Lemma raw_at_Some (pkt : list Byte.byte) (i : nat) (r : Z) :
  raw_sensor_value pkt i = Some r -> raw_at pkt i = r.
Proof. unfold raw_at. by intros ->. Qed.

(** C3: for a raw light value in [0, 1023] the value appended at the
    light position, and published, is the light curve ([100 - r] below
    25, else [round((1023 - r) * 75/998)]) passed through the light
    scale, which is the identity; 0 gives 100, 24 gives 76, 25 gives 75
    and 1023 gives 0. *)
Theorem light_output (pkt : list Byte.byte) (g : gateway) (r : Z) :
  length pkt = 18%nat -> payload g = [] -> stopped pkt = false ->
  raw_sensor_value pkt light_position = Some r -> 0 <= r <= 1023 ->
  let out :=
    if r <? 25 then 100 - r else round_ratio ((1023 - r) * 75) 998 in
  (forall prev, cook light_position r prev = Some (PyInt out)) /\
  analog_scaling out light_position = Some out /\
  (exists rep,
     published <$> cycle pkt g
       = Some (published g ++ [(rep, publisher_topic g)]) /\
     rep !! 5%nat = Some (PyInt out)) /\
  cook light_position 0 PyNone = Some (PyInt 100) /\
  cook light_position 24 PyNone = Some (PyInt 76) /\
  cook light_position 25 PyNone = Some (PyInt 75) /\
  cook light_position 1023 PyNone = Some (PyInt 0).
Proof.
  intros Hlen Hpay Hgo Hraw Hr out.
  assert (out = appended light_position r) as Hout by reflexivity.
  split; [intros prev; rewrite Hout; apply cook_closed; unfold light_position; lia|].
  split.
  { apply light_scale_identity. rewrite Hout.
    apply appended_in_percent; [unfold light_position|]; lia. }
  split.
  { eexists. split; [by apply cycle_published|].
    unfold expected_report. rewrite Hgo.
    change light_position with 6%nat in Hraw.
    cbn [seq map lookup list_lookup]. by rewrite (raw_at_Some _ _ _ Hraw). }
  repeat split; by rewrite cook_closed by (unfold light_position; lia).
Qed.

Lemma light_output_witness :
  exists rep,
    published <$> cycle (packet [128; 4; 0; 0; 0; 0; 0; 0; 0; 0; 0; 0;
                                 4; 12; 0; 0; 0; 0])
                        (init "from_picoboard_gateway")
    = Some ([] ++ [(rep, "from_picoboard_gateway")]) /\
    rep !! 5%nat = Some (PyInt 38).
Proof.
  destruct (light_output
              (packet [128; 4; 0; 0; 0; 0; 0; 0; 0; 0; 0; 0;
                       4; 12; 0; 0; 0; 0])
              (init "from_picoboard_gateway") 524)
    as (_ & _ & H & _);
    [reflexivity | reflexivity | reflexivity | reflexivity | lia |].
  exact H.
Defined.

(** C7: the value appended at the button position, and published, is
    the logical negation of the raw value: 1 for a raw value of 0, and 0
    for every other raw value. *)
Theorem button_output (pkt : list Byte.byte) (g : gateway) (raw : Z) :
  length pkt = 18%nat -> payload g = [] -> stopped pkt = false ->
  raw_sensor_value pkt button_position = Some raw ->
  let out := if raw =? 0 then 1 else 0 in
  (forall prev, cook button_position raw prev = Some (PyInt out)) /\
  (exists rep,
     published <$> cycle pkt g
       = Some (published g ++ [(rep, publisher_topic g)]) /\
     rep !! 3%nat = Some (PyInt out)) /\
  (raw = 0 -> out = 1) /\ (raw <> 0 -> out = 0).
Proof.
  intros Hlen Hpay Hgo Hraw out.
  split; [reflexivity|]. split.
  { eexists. split; [by apply cycle_published|].
    unfold expected_report. rewrite Hgo.
    change button_position with 4%nat in Hraw.
    cbn [seq map lookup list_lookup]. by rewrite (raw_at_Some _ _ _ Hraw). }
  unfold out. split; intros H; by destruct (Z.eqb_spec raw 0).
Qed.

Lemma button_output_witness :
  (forall prev, cook button_position 1 prev = Some (PyInt 0)) /\
  exists rep,
    published <$> cycle (packet [128; 4; 0; 0; 0; 0; 0; 0; 0; 1; 0; 0;
                                 0; 0; 0; 0; 0; 0])
                        (init "from_picoboard_gateway")
    = Some ([] ++ [(rep, "from_picoboard_gateway")]) /\
    rep !! 3%nat = Some (PyInt 0).
Proof.
  destruct (button_output
              (packet [128; 4; 0; 0; 0; 0; 0; 0; 0; 1; 0; 0;
                       0; 0; 0; 0; 0; 0])
              (init "from_picoboard_gateway") 1)
    as (H1 & H2 & _); [reflexivity | reflexivity | reflexivity | reflexivity |].
  exact (conj H1 H2).
Defined.

(** The sound position is in [analog_sensor_list], so the value kept for
    it is the one [analog_scaling] returns. *)
Lemma sound_is_rescaled (r : Z) (prev : pyval) :
  0 <= r <= 1151 ->
  cook sound_position r prev = Some (PyInt (round_ratio (r * 100) 1023)).
Proof.
  intros Hr. by rewrite cook_closed by (unfold sound_position; lia).
Qed.

(** C1: for the raw sound value 18 the sound curve gives 0, but the
    value [run] publishes at the sound position is 2, the one
    [analog_scaling] returns; for 68 the curve gives 25 and [run]
    publishes 7. *)
Theorem sound_output_overwritten :
  let pkt18 := packet [128; 4; 0; 0; 0; 0; 0; 0; 0; 0; 0; 0;
                       0; 0; 0; 18; 0; 0] in
  let pkt68 := packet [128; 4; 0; 0; 0; 0; 0; 0; 0; 0; 0; 0;
                       0; 0; 0; 68; 0; 0] in
  raw_sensor_value pkt18 sound_position = Some 18 /\
  sound_curve 18 = 0 /\
  (exists rep,
     published <$> cycle pkt18 (init "from_picoboard_gateway")
       = Some [(rep, "from_picoboard_gateway")] /\
     rep !! 6%nat = Some (PyInt 2)) /\
  raw_sensor_value pkt68 sound_position = Some 68 /\
  sound_curve 68 = 25 /\
  (exists rep,
     published <$> cycle pkt68 (init "from_picoboard_gateway")
       = Some [(rep, "from_picoboard_gateway")] /\
     rep !! 6%nat = Some (PyInt 7)).
Proof.
  repeat split; try reflexivity; eexists; split; vm_compute; reflexivity.
Qed.

(** ** The packet decoder and the polling loop *)

Lemma raw_at_bytes (pkt : list Byte.byte) (i : nat) (hi lo : Byte.byte) :
  pkt !! (2 * i)%nat = Some hi -> pkt !! (2 * i + 1)%nat = Some lo ->
  raw_at pkt i = Z.shiftl (Z.land (byte_val hi) 7) 7 + byte_val lo.
Proof.
  intros Hhi Hlo. unfold raw_at, raw_sensor_value, get_byte.
  by rewrite Hhi, Hlo.
Qed.

Lemma raw_at_nonneg (pkt : list Byte.byte) (i : nat) :
  length pkt = 18%nat -> (i < 9)%nat -> 0 <= raw_at pkt i.
Proof.
  intros Hlen Hi.
  destruct (raw_sensor_value_Some pkt i Hlen Hi) as (raw & Hraw & Hrange).
  rewrite (raw_at_Some _ _ _ Hraw). lia.
Qed.

(** C6, with the raw values bounded: for an 18-byte packet whose first
    entry has channel id 0 or 15 and id value 4, and whose raw values at
    entries 1 to 8 are at most 1023, one report is published; it has
    exactly 8 integers, each in [0, 100], in the order D, C, B, button,
    A, light, sound, slider, and the raw value of entry [i] is
    [((frame[2i] & 7) << 7) + frame[2i+1]]. *)
Theorem reading_vector (pkt : list Byte.byte) (g : gateway) (c : Z) :
  length pkt = 18%nat -> payload g = [] ->
  channel_id pkt = Some c -> c = 0 \/ c = 15 -> id_value pkt = Some 4 ->
  (forall i, (1 <= i <= 8)%nat -> raw_at pkt i <= 1023) ->
  exists rep,
    published <$> cycle pkt g
      = Some (published g ++ [(rep, publisher_topic g)]) /\
    length rep = 8%nat /\
    Forall percent rep /\
    rep = [PyInt (scale_inverted (raw_at pkt 1));
           PyInt (scale_inverted (raw_at pkt 2));
           PyInt (scale_inverted (raw_at pkt 3));
           PyInt (button_negation (raw_at pkt 4));
           PyInt (scale_inverted (raw_at pkt 5));
           PyInt (light_curve (raw_at pkt 6));
           PyInt (scale_direct (raw_at pkt 7));
           PyInt (scale_direct (raw_at pkt 8))] /\
    forall (i : nat) (hi lo : Byte.byte),
      pkt !! (2 * i)%nat = Some hi -> pkt !! (2 * i + 1)%nat = Some lo ->
      raw_at pkt i = Z.shiftl (Z.land (byte_val hi) 7) 7 + byte_val lo.
Proof.
  intros Hlen Hpay Hc Hok Hv Hraw.
  eexists. split; [by apply cycle_published|].
  unfold expected_report, stopped.
  rewrite (check_first_id pkt c 4 Hc Hok Hv). simpl.
  split; [reflexivity|]. split.
  { repeat constructor;
      (apply appended_in_percent; [lia|]; split;
       [apply raw_at_nonneg; [done|lia] | apply Hraw; lia]). }
  split; [reflexivity|]. apply raw_at_bytes.
Qed.

Lemma reading_vector_witness :
  exists rep,
    published <$> cycle (packet [128; 4; 137; 0; 147; 127; 149; 0; 152; 1;
                                 167; 127; 168; 24; 176; 68; 188; 12])
                        (init "from_picoboard_gateway")
    = Some ([] ++ [(rep, "from_picoboard_gateway")]) /\
    length rep = 8%nat /\ Forall percent rep.
Proof.
  destruct (reading_vector
              (packet [128; 4; 137; 0; 147; 127; 149; 0; 152; 1;
                       167; 127; 168; 24; 176; 68; 188; 12])
              (init "from_picoboard_gateway") 0)
    as (rep & H1 & H2 & H3 & _).
  - reflexivity.
  - reflexivity.
  - reflexivity.
  - by left.
  - reflexivity.
  - intros i Hi.
    do 9 (destruct i as [|i]; [first [lia | vm_compute; discriminate]|]).
    lia.
  - exists rep. exact (conj H1 (conj H2 H3)).
Defined.

(** C6 as stated fails: this packet has channel id 0 and id value 4 in
    its first entry, and the raw value 1151 at entry 1 (high byte 7, low
    byte 255); the first integer of the published report is -13. *)
Lemma reading_vector_counterexample :
  let pkt := packet [128; 4; 7; 255; 0; 0; 0; 0; 0; 0; 0; 0;
                     0; 0; 0; 0; 0; 0] in
  length pkt = 18%nat /\
  channel_id pkt = Some 0 /\ id_value pkt = Some 4 /\
  published <$> cycle pkt (init "from_picoboard_gateway")
    = Some [([PyInt (-13); PyInt 100; PyInt 100; PyInt 1; PyInt 100;
              PyInt 100; PyInt 0; PyInt 0], "from_picoboard_gateway")] /\
  ~ Forall percent [PyInt (-13); PyInt 100; PyInt 100; PyInt 1; PyInt 100;
                    PyInt 100; PyInt 0; PyInt 0].
Proof.
  repeat split; try (vm_compute; reflexivity).
  intros H. apply Forall_cons_1 in H as [H _]. simpl in H. lia.
Qed.

(** C2, for the id value only: for an 18-byte packet whose first entry
    has channel id 0 or 15 and an id value other than 4, the loop over
    the entries stops at entry 0 and appends nothing, so no partial
    vector is built; the one publish call of the cycle carries the
    report list as it was before the packet. *)
Theorem bad_id_stops_decoding (pkt : list Byte.byte) (g : gateway) (c v : Z) :
  length pkt = 18%nat ->
  channel_id pkt = Some c -> c = 0 \/ c = 15 ->
  id_value pkt = Some v -> v <> 4 ->
  for_each (entry pkt) (seq 0 9) (Locals PyNone (payload g))
    = Some (Locals PyNone (payload g)) /\
  published <$> cycle pkt g
    = Some (published g ++ [(payload g, publisher_topic g)]).
Proof.
  intros Hlen Hc Hok Hv Hne.
  pose proof (check_first_id pkt c v Hc Hok Hv) as Hchk.
  destruct (Z.eqb_spec v 4); [done|].
  assert (for_each (entry pkt) (seq 0 9) (Locals PyNone (payload g))
          = Some (Locals PyNone (payload g))) as Hloop.
  { cbn [seq for_each]. unfold entry at 1. simpl. by rewrite Hchk. }
  split; [done|]. unfold cycle. by rewrite Hloop.
Qed.

Lemma bad_id_stops_decoding_witness :
  published <$> cycle (packet [250; 5; 137; 0; 147; 127; 149; 0; 152; 1;
                               167; 127; 168; 24; 176; 68; 188; 12])
                      (init "from_picoboard_gateway")
  = Some ([] ++ [([], "from_picoboard_gateway")]).
Proof.
  destruct (bad_id_stops_decoding
              (packet [250; 5; 137; 0; 147; 127; 149; 0; 152; 1;
                       167; 127; 168; 24; 176; 68; 188; 12])
              (init "from_picoboard_gateway") 15 5)
    as (_ & H); [reflexivity | reflexivity | by right | reflexivity | lia |].
  exact H.
Defined.

(** C2 as stated fails: a packet with channel id 7 in its first entry is
    decoded in full and published, and a packet with channel id 0 and id
    value 5 leads to one publish call, with an empty report. *)
Lemma discard_counterexample :
  let bad_channel := packet [184; 4; 0; 18; 0; 0; 0; 0; 0; 1; 0; 0;
                             0; 24; 0; 18; 4; 12] in
  let bad_id := packet [128; 5; 0; 18; 0; 0; 0; 0; 0; 1; 0; 0;
                        0; 24; 0; 18; 4; 12] in
  channel_id bad_channel = Some 7 /\
  published <$> cycle bad_channel (init "from_picoboard_gateway")
    = Some [([PyInt 98; PyInt 100; PyInt 100; PyInt 0; PyInt 100;
              PyInt 76; PyInt 2; PyInt 51], "from_picoboard_gateway")] /\
  channel_id bad_id = Some 0 /\ id_value bad_id = Some 5 /\
  published <$> cycle bad_id (init "from_picoboard_gateway")
    = Some [([], "from_picoboard_gateway")].
Proof. repeat split; vm_compute; reflexivity. Qed.

Lemma cycle_resets (pkt : list Byte.byte) (g g' : gateway) :
  cycle pkt g = Some g' ->
  payload g' = [] /\ publisher_topic g' = publisher_topic g.
Proof.
  unfold cycle. destruct (for_each _ _ _); [|done]. simpl.
  by intros [= <-].
Qed.

Lemma cycles_invariant (pkts : list (list Byte.byte)) (g g' : gateway) :
  payload g = [] -> cycles pkts g = Some g' ->
  payload g' = [] /\ publisher_topic g' = publisher_topic g.
Proof.
  revert g. induction pkts as [|pkt pkts IH]; intros g Hpay Hrun.
  - simpl in Hrun. by injection Hrun as <-.
  - simpl in Hrun. destruct (cycle pkt g) as [g1|] eqn:Hc; [|done].
    simpl in Hrun. destruct (cycle_resets _ _ _ Hc) as [Hp Ht].
    destruct (IH g1 Hp Hrun) as [Hp' Ht']. split; [done|congruence].
Qed.

Lemma cycles_snoc (pkts : list (list Byte.byte)) (pkt : list Byte.byte)
  (g : gateway) :
  cycles (pkts ++ [pkt]) g = cycles pkts g ≫= cycle pkt.
Proof.
  revert g. induction pkts as [|p pkts IH]; intros g; simpl.
  - by destruct (cycle pkt g).
  - destruct (cycle p g); simpl; [apply IH|done].
Qed.

(** C10: after any packets, for an 18-byte packet whose first entry has
    channel id 0 or 15 and an id value other than 4, the cycle still
    makes its publish call, with an empty report list, and leaves the
    report list of the payload empty for the next cycle. *)
Theorem bad_id_publishes_empty (pkts : list (list Byte.byte))
  (pkt : list Byte.byte) (topic : string) (g : gateway) (c v : Z) :
  run pkts (init topic) = Some g ->
  length pkt = 18%nat ->
  channel_id pkt = Some c -> c = 0 \/ c = 15 ->
  id_value pkt = Some v -> v <> 4 ->
  exists g',
    run (pkts ++ [pkt]) (init topic) = Some g' /\
    published g' = published g ++ [([], topic)] /\
    payload g' = [] /\
    serial_out g' = serial_out g ++ [poll_byte].
Proof.
  intros Hrun Hlen Hc Hok Hv Hne. unfold run in *.
  destruct (cycles_invariant pkts (poll (init topic)) g eq_refl Hrun)
    as [Hpay Htopic].
  simpl in Htopic.
  rewrite cycles_snoc, Hrun. simpl.
  rewrite cycle_spec by done. eexists. split; [reflexivity|]. simpl.
  unfold expected_report, stopped.
  rewrite (check_first_id pkt c v Hc Hok Hv).
  destruct (Z.eqb_spec v 4); [done|].
  rewrite Hpay, Htopic. done.
Qed.

Lemma bad_id_publishes_empty_witness :
  exists g',
    run ([packet [128; 4; 137; 0; 147; 127; 149; 0; 152; 1;
                  167; 127; 168; 24; 176; 68; 188; 12]]
         ++ [packet [128; 0; 137; 0; 147; 127; 149; 0; 152; 1;
                     167; 127; 168; 24; 176; 68; 188; 12]])
        (init "from_picoboard_gateway") = Some g' /\
    published g'
      = [([PyInt 87; PyInt 50; PyInt 37; PyInt 0; PyInt 0; PyInt 76;
           PyInt 7; PyInt 51], "from_picoboard_gateway")]
        ++ [([], "from_picoboard_gateway")] /\
    payload g' = [].
Proof.
  destruct (bad_id_publishes_empty
              [packet [128; 4; 137; 0; 147; 127; 149; 0; 152; 1;
                       167; 127; 168; 24; 176; 68; 188; 12]]
              (packet [128; 0; 137; 0; 147; 127; 149; 0; 152; 1;
                       167; 127; 168; 24; 176; 68; 188; 12])
              "from_picoboard_gateway"
              (Gateway "from_picoboard_gateway" []
                 [([PyInt 87; PyInt 50; PyInt 37; PyInt 0; PyInt 0;
                    PyInt 76; PyInt 7; PyInt 51],
                   "from_picoboard_gateway")]
                 [poll_byte; poll_byte]) 0 0)
    as (g' & H1 & H2 & H3 & _);
    [vm_compute; reflexivity | reflexivity | reflexivity | by left
    | reflexivity | lia |].
  exists g'. exact (conj H1 (conj H2 H3)).
Defined.

(** ** The sonar *)

Lemma await_high_lows (t3 : float) (before : list float)
  (lv : list bool) (ck : list float) :
  Forall (fun t => gtb (sub t t3) timeout = false) before ->
  await_high t3 (replicate (length before) false ++ lv) (before ++ ck)
  = await_high t3 lv ck.
Proof.
  induction 1 as [|t before Ht _ IH]; [reflexivity|].
  simpl. by rewrite Ht.
Qed.

Lemma await_low_highs (t1 : float) (during : list float)
  (lv : list bool) (ck : list float) :
  Forall (fun t => gtb (sub t t1) timeout = false) during ->
  await_low t1 (replicate (length during) true ++ lv) (during ++ ck)
  = await_low t1 lv ck.
Proof.
  induction 1 as [|t during Ht _ IH]; [reflexivity|].
  simpl. by rewrite Ht.
Qed.

(** C8: [read] returns -1 when every sample of the echo line is low
    until a time more than 0.03 s after the trigger is read; it returns
    -2 when the line has been found high and every later sample is high
    until a time more than 0.03 s after the rising edge is read;
    otherwise, with the rising edge at [t1] and the falling edge at [t2],
    it returns [((t2 - t1) * 340 / 2) * 100]; the two sentinels differ;
    and an interval [t2 - t1] of 0.01 s gives 170. *)
Theorem read_outcomes (s : sonar) (p : pi) (t3 t1 t2 late3 late1 : float)
  (before during ck : list float) (lv : list bool) :
  Forall (fun t => gtb (sub t t3) timeout = false) before ->
  Forall (fun t => gtb (sub t t1) timeout = false) during ->
  gtb (sub late3 t3) timeout = true ->
  gtb (sub late1 t1) timeout = true ->
  let lows := replicate (length before) false in
  let highs := replicate (length during) true in
  fst <$> read s (with_trace p (lows ++ false :: lv)
                             (t3 :: before ++ late3 :: ck))
    = Some (PyInt (-1)) /\
  fst <$> read s (with_trace p (lows ++ true :: highs ++ true :: lv)
                             (t3 :: before ++ t1 :: during ++ late1 :: ck))
    = Some (PyInt (-2)) /\
  fst <$> read s (with_trace p (lows ++ true :: highs ++ false :: lv)
                             (t3 :: before ++ t1 :: during ++ t2 :: ck))
    = Some (PyFloat (mul (SFdiv prec emax (mul (sub t2 t1) (of_int 340))
                                          (of_int 2))
                         (of_int 100))) /\
  PyInt (-1) <> PyInt (-2) /\
  (sub t2 t1 = decimal 1 2 ->
   fst <$> read s (with_trace p (lows ++ true :: highs ++ false :: lv)
                              (t3 :: before ++ t1 :: during ++ t2 :: ck))
     = Some (PyFloat (of_int 170))).
Proof.
  intros Hbefore Hduring Hlate3 Hlate1 lows highs. subst lows highs.
  assert (fst <$> read s (with_trace p
                            (replicate (length before) false
                               ++ true :: replicate (length during) true
                               ++ false :: lv)
                            (t3 :: before ++ t1 :: during ++ t2 :: ck))
          = Some (PyFloat (mul (SFdiv prec emax (mul (sub t2 t1) (of_int 340))
                                                (of_int 2))
                               (of_int 100)))) as Hecho.
  { unfold read, time, gpio_trigger, with_trace. simpl.
    rewrite await_high_lows by done. simpl.
    rewrite await_low_highs by done. reflexivity. }
  split.
  { unfold read, time, gpio_trigger, with_trace. simpl.
    rewrite await_high_lows by done. simpl. by rewrite Hlate3. }
  split.
  { unfold read, time, gpio_trigger, with_trace. simpl.
    rewrite await_high_lows by done. simpl.
    rewrite await_low_highs by done. simpl. by rewrite Hlate1. }
  split; [exact Hecho|].
  split; [discriminate|].
  intros Hinterval. rewrite Hecho, Hinterval. reflexivity.
Qed.

Lemma read_outcomes_witness :
  let s := SonarObj 23 24 INPUT INPUT true in
  let p := Pi ∅ [] [] [] [] in
  fst <$> read s (with_trace p [false; false; false]
                    [of_int 0; decimal 5 3; decimal 4 2])
    = Some (PyInt (-1)) /\
  fst <$> read s (with_trace p [false; true; true; true]
                    [of_int 0; decimal 5 3; decimal 1 2; decimal 15 3;
                     decimal 5 2])
    = Some (PyInt (-2)) /\
  fst <$> read s (with_trace p [false; true; true; false]
                    [of_int 0; decimal 5 3; decimal 1 2; decimal 15 3;
                     decimal 2 2])
    = Some (PyFloat (of_int 170)).
Proof.
  intros s p.
  destruct (read_outcomes s p (of_int 0) (decimal 1 2) (decimal 2 2)
              (decimal 4 2) (decimal 5 2) [decimal 5 3] [decimal 15 3]
              [] [])
    as (H1 & H2 & _ & _ & H3).
  - repeat constructor.
  - repeat constructor.
  - reflexivity.
  - reflexivity.
  - exact (conj H1 (conj H2 (H3 eq_refl))).
Defined.

Lemma restore_modes (m : gmap nat Z) (trigger echo : nat) (tm em : Z) :
  m !! trigger = Some tm -> m !! echo = Some em ->
  <[echo := em]> (<[trigger := tm]>
                    (<[echo := INPUT]> (<[trigger := OUTPUT]> m))) = m.
Proof.
  intros Ht He. apply map_eq. intros k.
  destruct (decide (k = echo)) as [->|Hne].
  - by rewrite lookup_insert_eq.
  - rewrite lookup_insert_ne by done.
    destruct (decide (k = trigger)) as [->|Hnt].
    + by rewrite lookup_insert_eq.
    + by rewrite !lookup_insert_ne by done.
Qed.

(** C9: after [__init__], the first [cancel] puts the modes of the GPIOs
    back as they were before [__init__]; a second [cancel] right after it
    changes nothing: the object, the modes and the list of [set_mode]
    calls are those the first call left. *)
Theorem cancel_idempotent (p p1 p2 : pi) (trigger echo : nat) (s : sonar) :
  __init__ p trigger echo = Some (s, p1) ->
  modes p2 = modes p1 ->
  modes (cancel s p2).2 = modes p /\
  cancel (cancel s p2).1 (cancel s p2).2 = cancel s p2 /\
  mode_calls (cancel (cancel s p2).1 (cancel s p2).2).2
    = mode_calls (cancel s p2).2.
Proof.
  intros Hinit Hmodes. unfold __init__, get_mode in Hinit.
  destruct (modes p !! trigger) as [tm|] eqn:Ht; [|done].
  destruct (modes p !! echo) as [em|] eqn:He; [|done].
  simpl in Hinit. injection Hinit as <- <-.
  unfold cancel. simpl in *. rewrite Hmodes.
  split; [by apply restore_modes|]. by split.
Qed.

Lemma cancel_idempotent_witness :
  let p := Pi {[23%nat := 4; 24%nat := 1]} [] [] [] [] in
  let s := SonarObj 23 24 4 1 true in
  let p1 := Pi {[23%nat := OUTPUT; 24%nat := INPUT]}
               [(23%nat, OUTPUT); (24%nat, INPUT)] [] [] [] in
  modes (cancel s p1).2 = modes p /\
  cancel (cancel s p1).1 (cancel s p1).2 = cancel s p1.
Proof.
  intros p s p1.
  destruct (cancel_idempotent p p1 p1 23 24 s) as (H1 & H2 & _).
  - vm_compute. reflexivity.
  - reflexivity.
  - exact (conj H1 H2).
Defined.

(** * Further properties of the modelled code *)

Import Discovery Parts.

(** ** More on the polling loop *)

Lemma cycles_spec (pkts : list (list Byte.byte)) (g : gateway) :
  Forall (fun pkt => length pkt = 18%nat) pkts -> payload g = [] ->
  cycles pkts g =
    Some (Gateway (publisher_topic g) []
            (published g
               ++ ((fun pkt => (expected_report pkt, publisher_topic g))
                     <$> pkts))
            (serial_out g ++ replicate (length pkts) poll_byte)).
Proof.
  intros Hlen. revert g.
  induction Hlen as [|pkt pkts Hpkt _ IH]; intros g Hpay.
  - simpl. rewrite !app_nil_r. destruct g; simpl in *. by subst.
  - simpl. rewrite cycle_spec by done. simpl.
    rewrite IH by done. simpl. rewrite Hpay. simpl.
    by rewrite <- !app_assoc.
Qed.

(** Whatever the packets hold, [run] publishes once per packet: for
    18-byte packets it never raises, the number of publish calls is the
    number of packets, every call uses the topic of the gateway, one poll
    byte is written at the start and one after every packet, and the
    report list of the payload is empty at the end. *)
Theorem run_publishes_once_per_packet (pkts : list (list Byte.byte))
  (topic : string) :
  Forall (fun pkt => length pkt = 18%nat) pkts ->
  exists g,
    run pkts (init topic) = Some g /\
    length (published g) = length pkts /\
    Forall (fun m => m.2 = topic) (published g) /\
    serial_out g = replicate (S (length pkts)) poll_byte /\
    payload g = [].
Proof.
  intros Hlen. unfold run. rewrite cycles_spec by done.
  eexists. split; [reflexivity|]. simpl.
  split; [by rewrite length_fmap|].
  split; [|done].
  rewrite Forall_fmap. by apply Forall_true.
Qed.

Lemma run_publishes_once_per_packet_witness :
  exists g,
    run [packet [128; 4; 137; 0; 147; 127; 149; 0; 152; 1;
                 167; 127; 168; 24; 176; 68; 188; 12];
         packet [184; 9; 0; 0; 0; 0; 0; 0; 0; 0; 0; 0; 0; 0; 0; 0; 0; 0];
         packet [250; 7; 0; 0; 0; 0; 0; 0; 0; 0; 0; 0; 0; 0; 0; 0; 0; 0]]
        (init "from_picoboard_gateway") = Some g /\
    length (published g) = 3%nat /\
    serial_out g = [poll_byte; poll_byte; poll_byte; poll_byte].
Proof.
  destruct (run_publishes_once_per_packet
              [packet [128; 4; 137; 0; 147; 127; 149; 0; 152; 1;
                       167; 127; 168; 24; 176; 68; 188; 12];
               packet [184; 9; 0; 0; 0; 0; 0; 0; 0; 0; 0; 0; 0; 0; 0; 0; 0; 0];
               packet [250; 7; 0; 0; 0; 0; 0; 0; 0; 0; 0; 0; 0; 0; 0; 0; 0; 0]]
              "from_picoboard_gateway")
    as (g & H1 & H2 & _ & H3 & _); [repeat constructor|].
  exists g. exact (conj H1 (conj H2 H3)).
Defined.

(** The report published for a packet depends on that packet alone: in a
    run over 18-byte packets, the [k]-th publish call carries what a
    gateway fresh from [__init__] publishes when this packet is the only
    one. *)
Theorem run_report_independent (pkts : list (list Byte.byte))
  (topic : string) (g : gateway) (k : nat) (pkt : list Byte.byte) :
  Forall (fun pkt => length pkt = 18%nat) pkts ->
  run pkts (init topic) = Some g ->
  pkts !! k = Some pkt ->
  exists m,
    published <$> run [pkt] (init topic) = Some [m] /\
    published g !! k = Some m.
Proof.
  intros Hlen Hrun Hk.
  assert (length pkt = 18%nat) as Hpkt.
  { rewrite Forall_lookup in Hlen. by apply (Hlen k). }
  unfold run in *. rewrite cycles_spec in Hrun by done.
  injection Hrun as <-. simpl.
  rewrite cycle_spec by done. simpl.
  eexists. split; [reflexivity|].
  by rewrite list_lookup_fmap, Hk.
Qed.

Lemma run_report_independent_witness :
  exists m,
    published <$> run [packet [128; 4; 137; 0; 147; 127; 149; 0; 152; 1;
                               167; 127; 168; 24; 176; 68; 188; 12]]
                      (init "from_picoboard_gateway") = Some [m] /\
    [([], "from_picoboard_gateway");
     ([PyInt 87; PyInt 50; PyInt 37; PyInt 0; PyInt 0; PyInt 76; PyInt 7;
       PyInt 51], "from_picoboard_gateway")] !! 1%nat = Some m.
Proof.
  apply (run_report_independent
           [packet [128; 5; 0; 0; 0; 0; 0; 0; 0; 0; 0; 0; 0; 0; 0; 0; 0; 0];
            packet [128; 4; 137; 0; 147; 127; 149; 0; 152; 1;
                    167; 127; 168; 24; 176; 68; 188; 12]]
           "from_picoboard_gateway"
           (Gateway "from_picoboard_gateway" []
              [([], "from_picoboard_gateway");
               ([PyInt 87; PyInt 50; PyInt 37; PyInt 0; PyInt 0; PyInt 76;
                 PyInt 7; PyInt 51], "from_picoboard_gateway")]
              [poll_byte; poll_byte; poll_byte])
           1);
    [repeat constructor | vm_compute; reflexivity | reflexivity].
Defined.

Lemma header_bytes (pkt : list Byte.byte) :
  length pkt = 18%nat ->
  exists c v, channel_id pkt = Some c /\ id_value pkt = Some v.
Proof.
  intros Hlen. unfold channel_id, id_value.
  destruct (get_byte_Some pkt 0) as (b0 & -> & _); [lia|].
  destruct (get_byte_Some pkt 1) as (b1 & -> & _); [lia|].
  by eexists _, _.
Qed.

Lemma stopped_iff (pkt : list Byte.byte) :
  length pkt = 18%nat ->
  stopped pkt = true <->
  exists c v, channel_id pkt = Some c /\ (c = 0 \/ c = 15) /\
              id_value pkt = Some v /\ v <> 4.
Proof.
  intros Hlen. destruct (header_bytes pkt Hlen) as (c & v & Hc & Hv).
  unfold stopped. split.
  - intros Hstop. exists c, v.
    destruct (decide (c = 0 \/ c = 15)) as [Hok|Hbad].
    + rewrite (check_first_id pkt c v Hc Hok Hv) in Hstop.
      destruct (Z.eqb_spec v 4); [done|]. done.
    + rewrite (check_first_skip pkt c Hc) in Hstop by lia. done.
  - intros (c' & v' & Hc' & Hok & Hv' & Hne).
    rewrite (check_first_id pkt c' v' Hc' Hok Hv').
    by destruct (Z.eqb_spec v' 4).
Qed.

(** A published report is whole or empty: for an 18-byte packet the
    report holds ints only (never [None]) and has either no entry or
    exactly 8; it is empty exactly when the first entry has channel id 0
    or 15 and an id value other than 4. *)
Theorem report_whole_or_empty (pkt : list Byte.byte) (g : gateway) :
  length pkt = 18%nat -> payload g = [] ->
  exists rep,
    published <$> cycle pkt g
      = Some (published g ++ [(rep, publisher_topic g)]) /\
    Forall is_int rep /\
    (length rep = 0%nat \/ length rep = 8%nat) /\
    (rep = [] <->
     exists c v, channel_id pkt = Some c /\ (c = 0 \/ c = 15) /\
                 id_value pkt = Some v /\ v <> 4).
Proof.
  intros Hlen Hpay. eexists. split; [by apply cycle_published|].
  rewrite <- (stopped_iff pkt Hlen). unfold expected_report.
  destruct (stopped pkt).
  - split; [constructor|]. split; [by left|]. done.
  - split; [simpl; repeat constructor|]. split; [by right|]. done.
Qed.

Lemma report_whole_or_empty_witness :
  exists rep,
    published <$> cycle (packet [250; 5; 137; 0; 147; 127; 149; 0; 152; 1;
                                 167; 127; 168; 24; 176; 68; 188; 12])
                        (init "from_picoboard_gateway")
      = Some ([] ++ [(rep, "from_picoboard_gateway")]) /\
    (length rep = 0%nat \/ length rep = 8%nat).
Proof.
  destruct (report_whole_or_empty
              (packet [250; 5; 137; 0; 147; 127; 149; 0; 152; 1;
                       167; 127; 168; 24; 176; 68; 188; 12])
              (init "from_picoboard_gateway"))
    as (rep & H1 & _ & H2 & _); [reflexivity | reflexivity |].
  exists rep. exact (conj H1 H2).
Defined.

(** A first channel other than 0 and 15 does not make [run] drop the
    packet: the [continue] only skips entry 0, and the report published
    is the one published for the same 16 data bytes behind the header
    (128, 4), with all 8 values, whatever the id value is. *)
Theorem bad_channel_still_published (b0 b1 : Byte.byte)
  (rest : list Byte.byte) (g : gateway) (c : Z) :
  length rest = 16%nat -> payload g = [] ->
  channel_id (b0 :: b1 :: rest) = Some c -> c <> 0 -> c <> 15 ->
  exists rep,
    published <$> cycle (b0 :: b1 :: rest) g
      = Some (published g ++ [(rep, publisher_topic g)]) /\
    published <$> cycle (Byte.x80 :: Byte.x04 :: rest) g
      = Some (published g ++ [(rep, publisher_topic g)]) /\
    length rep = 8%nat.
Proof.
  intros Hlen Hpay Hc H0 H15.
  eexists. split; [apply cycle_published; [simpl; lia | done]|].
  split.
  - rewrite cycle_published by (done || (simpl; lia)).
    unfold expected_report, stopped.
    rewrite (check_first_skip _ c Hc H0 H15). reflexivity.
  - unfold expected_report, stopped.
    by rewrite (check_first_skip _ c Hc H0 H15).
Qed.

Lemma bad_channel_still_published_witness :
  exists rep,
    published <$> cycle (packet [184; 9; 137; 0; 147; 127; 149; 0; 152; 1;
                                 167; 127; 168; 24; 176; 68; 188; 12])
                        (init "from_picoboard_gateway")
      = Some ([] ++ [(rep, "from_picoboard_gateway")]) /\
    length rep = 8%nat.
Proof.
  destruct (bad_channel_still_published Byte.xb8 Byte.x09
              (packet [137; 0; 147; 127; 149; 0; 152; 1;
                       167; 127; 168; 24; 176; 68; 188; 12])
              (init "from_picoboard_gateway") 7)
    as (rep & H1 & _ & H2); [reflexivity | reflexivity | reflexivity
                            | lia | lia |].
  exists rep. exact (conj H1 H2).
Defined.

(** The channel number stored in the entries 1 to 8 is never looked at:
    two 18-byte packets with the same first two bytes whose entries 1 to
    8 agree on the low 3 bits of the high byte and on the low byte lead
    to the same publish call. *)
Theorem embedded_channel_ignored (pkt pkt' : list Byte.byte) (g : gateway) :
  length pkt = 18%nat -> length pkt' = 18%nat -> payload g = [] ->
  take 2 pkt = take 2 pkt' ->
  (forall (i : nat) (hi lo hi' lo' : Byte.byte),
     (1 <= i <= 8)%nat ->
     pkt !! (2 * i)%nat = Some hi -> pkt !! (2 * i + 1)%nat = Some lo ->
     pkt' !! (2 * i)%nat = Some hi' -> pkt' !! (2 * i + 1)%nat = Some lo' ->
     Z.land (byte_val hi) 7 = Z.land (byte_val hi') 7 /\ lo = lo') ->
  cycle pkt g = cycle pkt' g.
Proof.
  intros Hlen Hlen' Hpay Hhead Hdata.
  rewrite !cycle_spec by done. do 3 f_equal.
  assert (forall k, (k < 2)%nat -> pkt !! k = pkt' !! k) as Hk.
  { intros k Hlt. rewrite <- (lookup_take_lt pkt 2 k) by done.
    rewrite <- (lookup_take_lt pkt' 2 k) by done. by rewrite Hhead. }
  assert (check_first pkt = check_first pkt') as Hchk.
  { unfold check_first, get_byte. by rewrite !Hk by lia. }
  assert (forall i, (1 <= i <= 8)%nat -> raw_at pkt i = raw_at pkt' i) as Hraw.
  { intros i Hi.
    destruct (lookup_lt_is_Some_2 pkt (2 * i)) as [hi Hhi]; [lia|].
    destruct (lookup_lt_is_Some_2 pkt (2 * i + 1)) as [lo Hlo]; [lia|].
    destruct (lookup_lt_is_Some_2 pkt' (2 * i)) as [hi' Hhi']; [lia|].
    destruct (lookup_lt_is_Some_2 pkt' (2 * i + 1)) as [lo' Hlo']; [lia|].
    destruct (Hdata i hi lo hi' lo' Hi Hhi Hlo Hhi' Hlo') as [Hland ->].
    rewrite (raw_at_bytes pkt i hi lo') by done.
    rewrite (raw_at_bytes pkt' i hi' lo') by done.
    by rewrite Hland. }
  f_equal. f_equal. unfold expected_report, stopped. rewrite Hchk.
  destruct (check_first pkt') as [[]|]; try reflexivity;
    cbn [seq map]; by rewrite !Hraw by lia.
Qed.

Lemma embedded_channel_ignored_witness :
  cycle (packet [128; 4; 137; 0; 147; 127; 149; 0; 152; 1;
                 167; 127; 168; 24; 176; 68; 188; 12])
        (init "from_picoboard_gateway")
  = cycle (packet [128; 4; 1; 0; 3; 127; 5; 0; 0; 1;
                   7; 127; 0; 24; 0; 68; 4; 12])
          (init "from_picoboard_gateway").
Proof.
  apply embedded_channel_ignored;
    [reflexivity | reflexivity | reflexivity | reflexivity |].
  intros i hi lo hi' lo' Hi.
  do 9 (destruct i as [|i];
        [first [lia | intros [= <-] [= <-] [= <-] [= <-]; by split]|]).
  lia.
Defined.

(** ** More on the scaling *)

Lemma sound_branch_table : forallb sound_branch_agrees (upto 1152) = true.
Proof. vm_compute. reflexivity. Qed.

(** The sound branch of [run] never raises and computes the sound curve
    exactly, within [0, 100], for every raw value an entry can hold; the
    value is then replaced, as [cook] goes on with [analog_scaling]. *)
Theorem sound_branch_exact (raw : Z) (prev : pyval) :
  0 <= raw <= 1151 ->
  sound_branch raw = Some (PyInt (sound_curve raw)) /\
  0 <= sound_curve raw <= 100 /\
  cook sound_position raw prev
    = sound_branch raw ≫= fun _ => PyInt <$> analog_scaling raw sound_position.
Proof.
  intros Hraw.
  assert (cook sound_position raw prev
          = sound_branch raw ≫=
              fun _ => PyInt <$> analog_scaling raw sound_position)
    as Hcook by reflexivity.
  pose proof (upto_complete _ _ sound_branch_table raw ltac:(lia)) as Hok.
  unfold sound_branch_agrees in Hok.
  destruct (sound_branch raw) as [[|z|]|]; try discriminate.
  apply andb_true_iff in Hok as [Hok H100].
  apply andb_true_iff in Hok as [Heq H0].
  apply Z.eqb_eq in Heq. apply Z.leb_le in H0, H100. subst z.
  split; [done|]. split; [lia|]. exact Hcook.
Qed.

Lemma sound_branch_exact_witness :
  sound_branch 134 = Some (PyInt 33) /\
  cook sound_position 134 PyNone
    = sound_branch 134 ≫= fun _ => PyInt <$> analog_scaling 134 sound_position.
Proof.
  destruct (sound_branch_exact 134 PyNone) as (H1 & _ & H2); [lia|].
  exact (conj H1 H2).
Defined.

(** The sound value [run] publishes is the plain rescale of the raw
    value, [round(raw * 100/1023)], for every packet that is decoded. *)
Theorem sound_published_rescaled (pkt : list Byte.byte) (g : gateway)
  (raw : Z) :
  length pkt = 18%nat -> payload g = [] -> stopped pkt = false ->
  raw_sensor_value pkt sound_position = Some raw ->
  exists rep,
    published <$> cycle pkt g
      = Some (published g ++ [(rep, publisher_topic g)]) /\
    rep !! 6%nat = Some (PyInt (round_ratio (raw * 100) 1023)).
Proof.
  intros Hlen Hpay Hgo Hraw.
  eexists. split; [by apply cycle_published|].
  unfold expected_report. rewrite Hgo.
  change sound_position with 7%nat in Hraw.
  cbn [seq map lookup list_lookup]. by rewrite (raw_at_Some _ _ _ Hraw).
Qed.

Lemma sound_published_rescaled_witness :
  exists rep,
    published <$> cycle (packet [128; 4; 0; 0; 0; 0; 0; 0; 0; 0; 0; 0;
                                 0; 0; 1; 6; 0; 0])
                        (init "from_picoboard_gateway")
      = Some ([] ++ [(rep, "from_picoboard_gateway")]) /\
    rep !! 6%nat = Some (PyInt 13).
Proof.
  apply (sound_published_rescaled
           (packet [128; 4; 0; 0; 0; 0; 0; 0; 0; 0; 0; 0; 0; 0; 1; 6; 0; 0])
           (init "from_picoboard_gateway") 134); reflexivity.
Defined.

Lemma mirror_table :
  forallb (fun r => (scale_inverted r + scale_direct r =? 100)
                    && (scale_inverted r =? scale_direct (1023 - r)))
          (upto 1024) = true.
Proof. vm_compute. reflexivity. Qed.

(** The inverted scale is the mirror image of the direct one: on
    [0, 1023] the value of an inverted channel and the value of a direct
    channel for the same raw value add up to 100, and the inverted value
    of [r] is the direct value of [1023 - r]. *)
Theorem inverted_mirrors_direct (r : Z) (i j : nat) :
  mem i inverted_analog_list = true ->
  j <> light_position -> mem j inverted_analog_list = false ->
  0 <= r <= 1023 ->
  exists v w,
    analog_scaling r i = Some v /\ analog_scaling r j = Some w /\
    v + w = 100 /\ analog_scaling (1023 - r) j = Some v.
Proof.
  intros Hi Hj Hj' Hr.
  pose proof (upto_complete _ _ mirror_table r ltac:(lia)) as Hok.
  simpl in Hok. apply andb_true_iff in Hok as [Hsum Hmir].
  apply Z.eqb_eq in Hsum, Hmir.
  exists (scale_inverted r), (scale_direct r).
  rewrite (analog_scaling_elif r i Hi), analog_scaling_D by lia.
  rewrite (analog_scaling_else r j), (analog_scaling_else (1023 - r) j)
    by done.
  rewrite !analog_scaling_slider by lia.
  repeat split; [done|]. by rewrite Hmir.
Qed.

Lemma inverted_mirrors_direct_witness :
  exists v w,
    analog_scaling 300 2 = Some v /\ analog_scaling 300 8 = Some w /\
    v + w = 100 /\ analog_scaling (1023 - 300) 8 = Some v.
Proof.
  apply inverted_mirrors_direct; [reflexivity | discriminate | reflexivity | lia].
Defined.

Lemma light_steps :
  forallb (fun z => light_curve (z + 1) <=? light_curve z) (upto 1023)
  = true.
Proof. vm_compute. reflexivity. Qed.

(** The light value does not increase when the raw value grows, and it
    stays within [0, 100] on [0, 1023]. *)
Theorem light_output_antitone (r r' : Z) (prev : pyval) :
  0 <= r -> r <= r' -> r' <= 1023 ->
  exists v v',
    cook light_position r prev = Some (PyInt v) /\
    cook light_position r' prev = Some (PyInt v') /\
    v' <= v /\ 0 <= v' /\ v <= 100.
Proof.
  intros Hr Hrr Hr'.
  exists (light_curve r), (light_curve r').
  rewrite !cook_closed by (unfold light_position; lia).
  split; [reflexivity|]. split; [reflexivity|].
  pose proof (appended_in_percent 6 r ltac:(lia) ltac:(lia)) as B.
  pose proof (appended_in_percent 6 r' ltac:(lia) ltac:(lia)) as B'.
  change (appended 6 r) with (light_curve r) in B.
  change (appended 6 r') with (light_curve r') in B'.
  split; [|lia].
  enough (- light_curve r <= - light_curve r') by lia.
  apply (steps_monotone (fun z => - light_curve z) 1023); try done.
  intros z Hz.
  pose proof (upto_complete _ _ light_steps z Hz) as Hstep.
  apply Z.leb_le in Hstep. lia.
Qed.

Lemma light_output_antitone_witness :
  exists v v',
    cook light_position 24 PyNone = Some (PyInt v) /\
    cook light_position 25 PyNone = Some (PyInt v') /\
    v' <= v /\ 0 <= v' /\ v <= 100.
Proof. apply light_output_antitone; lia. Defined.

Lemma clamp_table :
  forallb (fun r =>
             Bool.eqb ((0 <=? scale_direct r) && (scale_direct r <=? 100))
                      (r <=? 1028)
             && Bool.eqb ((0 <=? scale_inverted r)
                          && (scale_inverted r <=? 100))
                         (r <=? 1028))
          (upto 1152) = true.
Proof. vm_compute. reflexivity. Qed.

(** [analog_scaling] does not clamp: for a position of
    [analog_sensor_list] and a raw value an entry can hold (up to 1151),
    the result is within [0, 100] exactly when the raw value is at most
    1028. *)
Theorem analog_scaling_no_clamp (raw : Z) (i : nat) :
  mem i analog_sensor_list = true -> 0 <= raw <= 1151 ->
  exists v, analog_scaling raw i = Some v /\
            (0 <= v <= 100 <-> raw <= 1028).
Proof.
  intros Hi Hraw.
  pose proof (upto_complete _ _ clamp_table raw ltac:(lia)) as Hok.
  simpl in Hok. apply andb_true_iff in Hok as [Hd Hv].
  apply Bool.eqb_prop in Hd, Hv.
  assert (forall v, 0 <= v <= 100 <-> (0 <=? v) && (v <=? 100) = true) as Hb.
  { intros v. rewrite andb_true_iff, !Z.leb_le. tauto. }
  destruct (mem i inverted_analog_list) eqn:Hinv.
  - exists (scale_inverted raw).
    rewrite (analog_scaling_elif raw i Hinv), analog_scaling_D by lia.
    split; [done|]. rewrite Hb, Hv. apply Z.leb_le.
  - exists (scale_direct raw).
    rewrite (analog_scaling_else raw i), analog_scaling_slider by
      (done || lia || (intros ->; discriminate)).
    split; [done|]. rewrite Hb, Hd. apply Z.leb_le.
Qed.

Lemma analog_scaling_no_clamp_witness :
  exists v, analog_scaling 1029 8 = Some v /\ (0 <= v <= 100 <-> 1029 <= 1028).
Proof. apply analog_scaling_no_clamp; [reflexivity | lia]. Defined.

(** ** Packets that are too short *)

Lemma raw_sensor_value_bound (pkt : list Byte.byte) (i : nat) (raw : Z) :
  raw_sensor_value pkt i = Some raw -> 0 <= raw <= 1151.
Proof.
  unfold raw_sensor_value, get_byte. intros Hraw.
  destruct (pkt !! (2 * i)%nat) as [hi|]; [|done].
  destruct (pkt !! (2 * i + 1)%nat) as [lo|]; [|done].
  simpl in Hraw. injection Hraw as <-.
  apply raw_range, byte_val_range.
Qed.

Lemma entry_sensor_any (pkt : list Byte.byte) (i : nat) (s : locals) :
  (1 <= i <= 8)%nat ->
  entry pkt i s =
    raw ← raw_sensor_value pkt i;
    Some (Fallthrough,
          Locals (PyInt (appended i raw))
                 (report s ++ [PyInt (appended i raw)])).
Proof.
  intros Hi. unfold entry.
  destruct i as [|i]; [lia|]. simpl.
  destruct (raw_sensor_value pkt (S i)) as [raw|] eqn:Hraw; [|done].
  simpl. rewrite cook_closed; [done|lia|].
  by apply (raw_sensor_value_bound pkt (S i)).
Qed.

Lemma for_each_missing (pkt : list Byte.byte) (l : list nat) (s : locals)
  (k : nat) :
  Forall (fun i => (1 <= i <= 8)%nat) l -> k ∈ l ->
  raw_sensor_value pkt k = None ->
  for_each (entry pkt) l s = None.
Proof.
  intros Hl. revert s.
  induction Hl as [|i l Hi _ IH]; intros s Hk Hnone.
  - by apply elem_of_nil in Hk.
  - simpl. rewrite entry_sensor_any by done.
    destruct (raw_sensor_value pkt i) as [raw|] eqn:Hraw; [|done].
    simpl. apply IH; [|done].
    apply elem_of_cons in Hk as [->|Hk]; [congruence|done].
Qed.

Lemma last_entry_missing (pkt : list Byte.byte) :
  (length pkt < 18)%nat -> raw_sensor_value pkt 8 = None.
Proof.
  intros Hlen. unfold raw_sensor_value, get_byte.
  rewrite (lookup_ge_None_2 pkt (2 * 8 + 1)) by (simpl; lia).
  by destruct (pkt !! (2 * 8)%nat).
Qed.

Lemma decode_short (pkt : list Byte.byte) (s : locals) :
  (length pkt < 18)%nat ->
  for_each (entry pkt) (seq 0 9) s
  = if stopped pkt then Some s else None.
Proof.
  intros Hlen. unfold stopped.
  change (seq 0 9) with (0 :: seq 1 8)%nat. cbn [for_each].
  unfold entry at 1. cbn [Nat.eqb].
  assert (forall s, for_each (entry pkt) (seq 1 8) s = None) as Hrest.
  { intros s'. apply (for_each_missing pkt _ s' 8).
    - cbn [seq]. repeat constructor; lia.
    - cbn [seq]. set_solver.
    - by apply last_entry_missing. }
  remember (seq 1 8) as l eqn:Hl. clear Hl.
  destruct (check_first pkt) as [[]|]; simpl; try done.
  destruct (raw_sensor_value pkt 0) as [raw|]; [|done].
  simpl. by rewrite Hrest.
Qed.

(** A packet shorter than 18 bytes makes [run] raise (IndexError) before
    anything is published, except when its first two bytes stop the
    decoding (channel id 0 or 15 and id value other than 4): then the
    report list is published as it is. *)
Theorem short_packet_raises (pkt : list Byte.byte) (g : gateway) :
  (length pkt < 18)%nat ->
  (stopped pkt = false -> cycle pkt g = None) /\
  (stopped pkt = true ->
   published <$> cycle pkt g
     = Some (published g ++ [(payload g, publisher_topic g)])).
Proof.
  intros Hlen. unfold cycle. rewrite decode_short by done.
  split; by intros ->.
Qed.

Lemma short_packet_raises_witness :
  cycle (packet [128; 4; 137; 0; 147; 127; 149; 0; 152; 1;
                 167; 127; 168; 24; 176; 68; 188])
        (init "from_picoboard_gateway") = None /\
  published <$> cycle (packet [128; 5; 137])
                      (init "from_picoboard_gateway")
    = Some ([] ++ [([], "from_picoboard_gateway")]).
Proof.
  split.
  - apply (short_packet_raises
             (packet [128; 4; 137; 0; 147; 127; 149; 0; 152; 1;
                      167; 127; 168; 24; 176; 68; 188])
             (init "from_picoboard_gateway")); [simpl; lia | reflexivity].
  - apply (short_packet_raises (packet [128; 5; 137])
             (init "from_picoboard_gateway")); [simpl; lia | reflexivity].
Defined.

(** ** Looking for the board *)

Lemma await_packet_idle (dev : string) (pre turns : list (nat * list Byte.byte))
  (st : probe) :
  Forall idle_turn pre ->
  await_packet dev (pre ++ turns) st
  = await_packet dev turns
      (Probe (opened st) (polled st ++ replicate (short_turns pre) dev)).
Proof.
  intros Hpre. revert st.
  induction Hpre as [|[n pkt] pre Hidle _ IH]; intros st.
  - simpl. rewrite app_nil_r. by destruct st.
  - unfold short_turns. simpl. destruct (Nat.ltb_spec n 18) as [Hlt|Hge].
    + rewrite IH. rewrite filter_cons_True by done. simpl.
      by rewrite <- app_assoc.
    + rewrite filter_cons_False by (simpl; lia).
      destruct Hidle as [Hlt|(c & Hc & H0 & H15)]; [simpl in Hlt; lia|].
      unfold channel_id in Hc. simpl in Hc.
      destruct (get_byte pkt 0) as [b0|]; [|done].
      simpl in *. injection Hc as <-.
      destruct (Z.eqb_spec (Z.shiftr (b0 - 128) 3) 15); [done|].
      destruct (Z.eqb_spec (Z.shiftr (b0 - 128) 3) 0); [done|].
      simpl. apply IH.
Qed.

Lemma find_skips (skip ports : list port) (st : probe) :
  Forall (fun q => pid q = None) skip ->
  find_the_picoboard (skip ++ ports) st = find_the_picoboard ports st.
Proof.
  induction 1 as [|q skip Hq _ IH]; [done|].
  simpl. by rewrite Hq.
Qed.

(** The answer of [find_the_picoboard]: ports without a pid are passed
    over unopened, and the first port with a pid decides alone.  While it
    shows fewer than 18 bytes a poll byte is written again; a packet
    whose first channel is neither 0 nor 15 is thrown away; the first
    packet with channel 0 or 15 ends the search, with [True] when its id
    value is 4 and [False] otherwise, and no later port is opened. *)
Theorem find_first_port_decides (skip rest : list port) (p : port)
  (pre after : list (nat * list Byte.byte)) (n : nat)
  (pkt : list Byte.byte) (c v : Z) (st : probe) :
  Forall (fun q => pid q = None) skip ->
  is_Some (pid p) ->
  line p = pre ++ (n, pkt) :: after ->
  Forall idle_turn pre ->
  (18 <= n)%nat ->
  channel_id pkt = Some c -> c = 0 \/ c = 15 -> id_value pkt = Some v ->
  find_the_picoboard (skip ++ p :: rest) st
  = Some (Some (v =? 4),
          Probe (opened st ++ [device p])
                (polled st ++ replicate (S (short_turns pre)) (device p))).
Proof.
  intros Hskip [d Hpid] Hline Hpre Hn Hc Hok Hv.
  rewrite find_skips by done. simpl. rewrite Hpid, Hline.
  rewrite await_packet_idle by done. simpl.
  destruct (Nat.ltb_spec n 18) as [Hlt|_]; [lia|].
  unfold channel_id, id_value in *.
  destruct (get_byte pkt 0) as [b0|]; [|done]. simpl in *.
  injection Hc as <-. rewrite Hv. simpl.
  assert (negb (Z.shiftr (b0 - 128) 3 =? 15)
          && negb (Z.shiftr (b0 - 128) 3 =? 0) = false) as ->.
  { destruct Hok as [-> | ->]; reflexivity. }
  rewrite <- app_assoc. simpl.
  by destruct (v =? 4).
Qed.

Lemma find_first_port_decides_witness :
  find_the_picoboard
    ([Port None "/dev/ttyS0" []]
       ++ Port (Some 24577) "/dev/ttyUSB0"
            ([(0%nat, []);
              (18%nat, packet [184; 4; 0; 0; 0; 0; 0; 0; 0; 0; 0; 0;
                               0; 0; 0; 0; 0; 0])]
               ++ (18%nat, packet [128; 5; 0; 0; 0; 0; 0; 0; 0; 0; 0; 0;
                                   0; 0; 0; 0; 0; 0]) :: [])
          :: [Port (Some 29987) "/dev/ttyUSB1"
                [(18%nat, packet [128; 4; 0; 0; 0; 0; 0; 0; 0; 0; 0; 0;
                                  0; 0; 0; 0; 0; 0])]])
    (Probe [] [])
  = Some (Some false,
          Probe ([] ++ ["/dev/ttyUSB0"])
                ([] ++ ["/dev/ttyUSB0"; "/dev/ttyUSB0"])).
Proof.
  apply (find_first_port_decides
           [Port None "/dev/ttyS0" []]
           [Port (Some 29987) "/dev/ttyUSB1"
              [(18%nat, packet [128; 4; 0; 0; 0; 0; 0; 0; 0; 0; 0; 0;
                                0; 0; 0; 0; 0; 0])]]
           (Port (Some 24577) "/dev/ttyUSB0"
              ([(0%nat, []);
                (18%nat, packet [184; 4; 0; 0; 0; 0; 0; 0; 0; 0; 0; 0;
                                 0; 0; 0; 0; 0; 0])]
                 ++ (18%nat, packet [128; 5; 0; 0; 0; 0; 0; 0; 0; 0; 0; 0;
                                     0; 0; 0; 0; 0; 0]) :: []))
           [(0%nat, []);
            (18%nat, packet [184; 4; 0; 0; 0; 0; 0; 0; 0; 0; 0; 0;
                             0; 0; 0; 0; 0; 0])]
           [] 18
           (packet [128; 5; 0; 0; 0; 0; 0; 0; 0; 0; 0; 0; 0; 0; 0; 0; 0; 0])
           0 5 (Probe [] [])).
  - repeat constructor.
  - by eexists.
  - reflexivity.
  - constructor; [left; simpl; lia|].
    constructor; [|constructor].
    right. exists 7. repeat split; [lia | lia].
  - lia.
  - reflexivity.
  - by left.
  - reflexivity.
Defined.

(** Without a port that has a pid, [find_the_picoboard] returns nothing
    ([None], which [__init__] takes as not found), and it opens no port
    and writes no byte. *)
Theorem find_without_pid (ports : list port) (st : probe) :
  Forall (fun q => pid q = None) ports ->
  find_the_picoboard ports st = Some (None, st).
Proof.
  intros Hall. rewrite <- (app_nil_r ports). by rewrite find_skips.
Qed.

Lemma find_without_pid_witness :
  find_the_picoboard
    [Port None "/dev/ttyS0" [(18%nat, packet [128; 4; 0; 0; 0; 0; 0; 0; 0;
                                              0; 0; 0; 0; 0; 0; 0; 0; 0])]]
    (Probe [] [])
  = Some (None, Probe [] []).
Proof. apply find_without_pid. repeat constructor. Defined.

(** The ports listed after the first port with a pid play no part: what
    the search does, and whether it ends at all, is the same with any
    other ports behind it. *)
Theorem find_ignores_later_ports (skip rest rest' : list port) (p : port)
  (st : probe) :
  Forall (fun q => pid q = None) skip ->
  is_Some (pid p) ->
  find_the_picoboard (skip ++ p :: rest) st
  = find_the_picoboard (skip ++ p :: rest') st.
Proof.
  intros Hskip [d Hpid]. rewrite !find_skips by done.
  simpl. by rewrite Hpid.
Qed.

Lemma find_ignores_later_ports_witness :
  find_the_picoboard
    ([] ++ Port (Some 24577) "/dev/ttyUSB0" [(3%nat, [])]
        :: [Port (Some 29987) "/dev/ttyUSB1"
              [(18%nat, packet [128; 4; 0; 0; 0; 0; 0; 0; 0; 0; 0; 0;
                                0; 0; 0; 0; 0; 0])]])
    (Probe [] [])
  = find_the_picoboard
      ([] ++ Port (Some 24577) "/dev/ttyUSB0" [(3%nat, [])] :: [])
      (Probe [] []).
Proof.
  apply find_ignores_later_ports; [constructor | by eexists].
Defined.

(** A port with a pid that never shows 18 bytes starting with channel 0
    or 15 holds the search for as long as it is watched: the loop has not
    returned when the turns are used up, and the ports after it are never
    tried, whatever they are. *)
Theorem find_blocked_by_silent_port (skip rest : list port) (p : port)
  (st : probe) :
  Forall (fun q => pid q = None) skip ->
  is_Some (pid p) ->
  Forall idle_turn (line p) ->
  find_the_picoboard (skip ++ p :: rest) st = None.
Proof.
  intros Hskip [d Hpid] Hidle. rewrite find_skips by done.
  simpl. rewrite Hpid.
  rewrite <- (app_nil_r (line p)), await_packet_idle by done.
  reflexivity.
Qed.

Lemma find_blocked_by_silent_port_witness :
  find_the_picoboard
    ([] ++ Port (Some 29987) "/dev/ttyUSB0"
             [(0%nat, []); (5%nat, []);
              (18%nat, packet [184; 4; 0; 0; 0; 0; 0; 0; 0; 0; 0; 0;
                               0; 0; 0; 0; 0; 0])]
        :: [Port (Some 24577) "/dev/ttyUSB1"
              [(18%nat, packet [128; 4; 0; 0; 0; 0; 0; 0; 0; 0; 0; 0;
                                0; 0; 0; 0; 0; 0])]])
    (Probe [] [])
  = None.
Proof.
  apply find_blocked_by_silent_port; [constructor | by eexists |].
  constructor; [left; simpl; lia|].
  constructor; [left; simpl; lia|].
  constructor; [|constructor].
  right. exists 7. repeat split; lia.
Defined.

(** ** More on the sonar *)

Lemma distance_value (t1 t2 : float) :
  distance t1 t2
  = Some (mul (SFdiv prec emax (mul (sub t2 t1) (of_int 340)) (of_int 2))
              (of_int 100)).
Proof. reflexivity. Qed.

Opaque distance timeout.

Lemma await_high_shape (t3 : float) (lv lv' : list bool)
  (ck ck' : list float) (e : loop_exit) :
  await_high t3 lv ck = Some (e, lv', ck') ->
  exists before,
    Forall (fun t => gtb (sub t t3) timeout = false) before /\
    ((e = Done /\
      lv = replicate (length before) false ++ true :: lv' /\
      ck = before ++ ck') \/
     (e = Return (PyInt (-1)) /\
      exists t4, lv = replicate (S (length before)) false ++ lv' /\
                 ck = before ++ t4 :: ck' /\
                 gtb (sub t4 t3) timeout = true)).
Proof.
  revert ck. induction lv as [|b lv IH]; intros ck Hrun; [discriminate|].
  cbn [await_high] in Hrun. destruct b.
  - injection Hrun as <- <- <-. exists []. split; [constructor|].
    left. split; [reflexivity|]. split; reflexivity.
  - destruct ck as [|t4 ck]; [discriminate|].
    destruct (gtb (sub t4 t3) timeout) eqn:Hlate.
    + injection Hrun as <- <- <-. exists []. split; [constructor|].
      right. split; [reflexivity|]. exists t4.
      split; [reflexivity|]. split; [reflexivity|exact Hlate].
    + destruct (IH ck Hrun) as (before & Hall & Hcase).
      exists (t4 :: before). split; [by constructor|].
      destruct Hcase as [(-> & -> & ->)|(-> & t & -> & -> & Ht)].
      * left. split; [reflexivity|]. split; reflexivity.
      * right. split; [reflexivity|]. exists t.
        split; [reflexivity|]. split; [reflexivity|exact Ht].
Qed.

Lemma await_low_shape (t1 : float) (lv lv' : list bool)
  (ck ck' : list float) (e : loop_exit) :
  await_low t1 lv ck = Some (e, lv', ck') ->
  exists during,
    Forall (fun t => gtb (sub t t1) timeout = false) during /\
    ((e = Done /\
      lv = replicate (length during) true ++ false :: lv' /\
      ck = during ++ ck') \/
     (e = Return (PyInt (-2)) /\
      exists t5, lv = replicate (S (length during)) true ++ lv' /\
                 ck = during ++ t5 :: ck' /\
                 gtb (sub t5 t1) timeout = true)).
Proof.
  revert ck. induction lv as [|b lv IH]; intros ck Hrun; [discriminate|].
  cbn [await_low] in Hrun. destruct b.
  - destruct ck as [|t5 ck]; [discriminate|].
    destruct (gtb (sub t5 t1) timeout) eqn:Hlate.
    + injection Hrun as <- <- <-. exists []. split; [constructor|].
      right. split; [reflexivity|]. exists t5.
      split; [reflexivity|]. split; [reflexivity|exact Hlate].
    + destruct (IH ck Hrun) as (during & Hall & Hcase).
      exists (t5 :: during). split; [by constructor|].
      destruct Hcase as [(-> & -> & ->)|(-> & t & -> & -> & Ht)].
      * left. split; [reflexivity|]. split; reflexivity.
      * right. split; [reflexivity|]. exists t.
        split; [reflexivity|]. split; [reflexivity|exact Ht].
  - injection Hrun as <- <- <-. exists []. split; [constructor|].
    left. split; [reflexivity|]. split; reflexivity.
Qed.

Lemma await_high_exit (t3 : float) (lv lv' : list bool) (ck ck' : list float)
  (e : loop_exit) :
  await_high t3 lv ck = Some (e, lv', ck') ->
  e = Done \/ e = Return (PyInt (-1)).
Proof.
  intros Hrun.
  destruct (await_high_shape _ _ _ _ _ _ Hrun)
    as (_ & _ & [(-> & _)|(-> & _)]); [by left|by right].
Qed.

Lemma await_low_exit (t1 : float) (lv lv' : list bool) (ck ck' : list float)
  (e : loop_exit) :
  await_low t1 lv ck = Some (e, lv', ck') ->
  e = Done \/ e = Return (PyInt (-2)).
Proof.
  intros Hrun.
  destruct (await_low_shape _ _ _ _ _ _ Hrun)
    as (_ & _ & [(-> & _)|(-> & _)]); [by left|by right].
Qed.

Lemma read_footprint (s : sonar) (p p' : pi) (v : pyval) :
  read s p = Some (v, p') ->
  modes p' = modes p /\
  mode_calls p' = mode_calls p /\
  pulses p' = pulses p ++ [(_trig s, 15, 1)] /\
  (v = PyInt (-1) \/ v = PyInt (-2) \/ exists d, v = PyFloat d).
Proof.
  unfold read, time, with_trace, gpio_trigger. simpl.
  destruct (clock p) as [|t3 ck]; [done|]. simpl.
  destruct (await_high t3 (levels p) ck) as [[[e lv] ck1]|] eqn:Hhigh;
    [|done].
  simpl. apply await_high_exit in Hhigh as [->| ->].
  - destruct ck1 as [|t1 ck1]; [done|]. simpl.
    destruct (await_low t1 lv ck1) as [[[e lv2] ck2]|] eqn:Hlow; [|done].
    simpl. apply await_low_exit in Hlow as [->| ->].
    + destruct ck2 as [|t2 ck2]; [done|]. simpl.
      destruct (distance t1 t2) as [d|]; [|done]. simpl.
      intros [= <- <-]. simpl. repeat split; eauto.
    + intros [= <- <-]. simpl. repeat split; eauto.
  - intros [= <- <-]. simpl. repeat split; eauto.
Qed.

(** What a call of [read] that returns does and gives: it leaves the
    modes of the GPIOs alone and calls [set_mode] never, it fires the
    trigger exactly once, with a pulse of 15 at level 1, whatever the
    outcome, and its value is -1, -2 or a float. *)
Theorem read_effects (s : sonar) (p p' : pi) (v : pyval) :
  read s p = Some (v, p') ->
  modes p' = modes p /\
  mode_calls p' = mode_calls p /\
  pulses p' = pulses p ++ [(_trig s, 15, 1)] /\
  (v = PyInt (-1) \/ v = PyInt (-2) \/ exists d, v = PyFloat d).
Proof. apply read_footprint. Qed.

Lemma read_effects_witness :
  let s := SonarObj 23 24 INPUT INPUT true in
  let p := Pi {[23%nat := OUTPUT; 24%nat := INPUT]} [] []
              [false; true; false]
              [of_int 0; decimal 5 3; decimal 1 2; decimal 2 2] in
  let p' := Pi {[23%nat := OUTPUT; 24%nat := INPUT]} []
               [(23%nat, 15, 1)] [] [] in
  modes p' = modes p /\ pulses p' = pulses p ++ [(23%nat, 15, 1)].
Proof.
  intros s p p'.
  destruct (read_effects s p p' (PyFloat (of_int 170))) as (H1 & _ & H2 & _);
    [vm_compute; reflexivity|].
  exact (conj H1 H2).
Defined.

Lemma read_inversion (s : sonar) (p p' : pi) (v : pyval) :
  read s p = Some (v, p') ->
  exists t3 before,
    Forall (fun t => gtb (sub t t3) timeout = false) before /\
    ((v = PyInt (-1) /\
      exists t4,
        levels p = replicate (S (length before)) false ++ levels p' /\
        clock p = t3 :: before ++ t4 :: clock p' /\
        gtb (sub t4 t3) timeout = true) \/
     exists t1 during,
       Forall (fun t => gtb (sub t t1) timeout = false) during /\
       ((v = PyInt (-2) /\
         exists t5,
           levels p = replicate (length before) false
                        ++ true :: replicate (S (length during)) true
                        ++ levels p' /\
           clock p = t3 :: before ++ t1 :: during ++ t5 :: clock p' /\
           gtb (sub t5 t1) timeout = true) \/
        (exists t2 d,
           v = PyFloat d /\ distance t1 t2 = Some d /\
           levels p = replicate (length before) false
                        ++ true :: replicate (length during) true
                        ++ false :: levels p' /\
           clock p = t3 :: before ++ t1 :: during ++ t2 :: clock p'))).
Proof.
  unfold read, time, with_trace, gpio_trigger. simpl.
  destruct (clock p) as [|t3 ck]; [done|]. simpl.
  destruct (await_high t3 (levels p) ck) as [[[e lv] ck1]|] eqn:Hhigh;
    [|done].
  simpl.
  destruct (await_high_shape _ _ _ _ _ _ Hhigh)
    as (before & Hbefore & [(-> & Hlv & ->)|(-> & t4 & Hlv & -> & Hlate)]).
  - destruct ck1 as [|t1 ck1]; [done|]. simpl.
    destruct (await_low t1 lv ck1) as [[[e lv2] ck2]|] eqn:Hlow; [|done].
    simpl.
    destruct (await_low_shape _ _ _ _ _ _ Hlow)
      as (during & Hduring
          & [(-> & Hlv2 & ->)|(-> & t5 & Hlv2 & -> & Hlate)]).
    + destruct ck2 as [|t2 ck2]; [done|]. simpl.
      destruct (distance t1 t2) as [d|] eqn:Hd; [|done]. simpl.
      intros [= <- <-]. simpl. exists t3, before. split; [exact Hbefore|].
      right. exists t1, during. split; [exact Hduring|].
      right. exists t2, d. rewrite Hlv, Hlv2. by repeat split.
    + intros [= <- <-]. simpl. exists t3, before. split; [exact Hbefore|].
      right. exists t1, during. split; [exact Hduring|].
      left. split; [reflexivity|]. exists t5. rewrite Hlv, Hlv2.
      by repeat split.
  - intros [= <- <-]. simpl. exists t3, before. split; [exact Hbefore|].
    left. split; [reflexivity|]. exists t4. by repeat split.
Qed.

(** [read] does not report a missing echo start for nothing: when it
    returns -1, every sample of the echo line it took was low, the times
    read after all but the last of them were not more than 0.03 after
    the first time [t3], and the last time read was. *)
Theorem no_echo_start_sound (s : sonar) (p p' : pi) :
  read s p = Some (PyInt (-1), p') ->
  exists (t3 t4 : float) (before : list float),
    Forall (fun t => gtb (sub t t3) timeout = false) before /\
    levels p = replicate (S (length before)) false ++ levels p' /\
    clock p = t3 :: before ++ t4 :: clock p' /\
    gtb (sub t4 t3) timeout = true.
Proof.
  intros Hread.
  destruct (read_inversion _ _ _ _ Hread)
    as (t3 & before & Hbefore
        & [(_ & t4 & Hlv & Hck & Hlate)
          |(t1 & during & _ & [(Hv & _)|(t2 & d & Hv & _)])]);
    [|discriminate|discriminate].
  exists t3, t4, before. by repeat split.
Qed.

Lemma no_echo_start_sound_witness :
  exists (t3 t4 : float) (before : list float),
    Forall (fun t => gtb (sub t t3) timeout = false) before /\
    [false; false; true] = replicate (S (length before)) false ++ [true] /\
    [of_int 0; decimal 5 3; decimal 4 2] = t3 :: before ++ t4 :: [] /\
    gtb (sub t4 t3) timeout = true.
Proof.
  apply (no_echo_start_sound (SonarObj 23 24 INPUT INPUT true)
           (Pi ∅ [] [] [false; false; true]
               [of_int 0; decimal 5 3; decimal 4 2])
           (Pi ∅ [] [(23%nat, 15, 1)] [true] [])).
  vm_compute. reflexivity.
Defined.

(** Likewise for the missing echo end: when [read] returns -2, the echo
    line was found high, every later sample taken was high too, and the
    last time read is more than 0.03 after [t1], the time read when the
    line was found high; the timeout of the second wait runs from [t1],
    not from the trigger. *)
Theorem no_echo_end_sound (s : sonar) (p p' : pi) :
  read s p = Some (PyInt (-2), p') ->
  exists (t3 t1 t5 : float) (before during : list float),
    Forall (fun t => gtb (sub t t3) timeout = false) before /\
    Forall (fun t => gtb (sub t t1) timeout = false) during /\
    levels p = replicate (length before) false
                 ++ true :: replicate (S (length during)) true
                 ++ levels p' /\
    clock p = t3 :: before ++ t1 :: during ++ t5 :: clock p' /\
    gtb (sub t5 t1) timeout = true.
Proof.
  intros Hread.
  destruct (read_inversion _ _ _ _ Hread)
    as (t3 & before & Hbefore
        & [(Hv & _)
          |(t1 & during & Hduring
            & [(_ & t5 & Hlv & Hck & Hlate)|(t2 & d & Hv & _)])]);
    [discriminate| |discriminate].
  exists t3, t1, t5, before, during. by repeat split.
Qed.

Lemma no_echo_end_sound_witness :
  exists (t3 t1 t5 : float) (before during : list float),
    Forall (fun t => gtb (sub t t3) timeout = false) before /\
    Forall (fun t => gtb (sub t t1) timeout = false) during /\
    [false; true; true; true]
      = replicate (length before) false
          ++ true :: replicate (S (length during)) true ++ [] /\
    [of_int 0; decimal 5 3; decimal 1 2; decimal 15 3; decimal 5 2]
      = t3 :: before ++ t1 :: during ++ t5 :: [] /\
    gtb (sub t5 t1) timeout = true.
Proof.
  apply (no_echo_end_sound (SonarObj 23 24 INPUT INPUT true)
           (Pi ∅ [] [] [false; true; true; true]
               [of_int 0; decimal 5 3; decimal 1 2; decimal 15 3;
                decimal 5 2])
           (Pi ∅ [] [(23%nat, 15, 1)] [] [])).
  vm_compute. reflexivity.
Defined.

(** A distance is always a measured one: when [read] returns a float,
    the echo line was seen low, then high, then low again within the
    timeouts, and the float is [((t2 - t1) * 340 / 2) * 100] for the time
    [t1] read right after the first high sample and the time [t2] read
    right after the next low one. *)
Theorem distance_sound (s : sonar) (p p' : pi) (d : float) :
  read s p = Some (PyFloat d, p') ->
  exists (t3 t1 t2 : float) (before during : list float),
    Forall (fun t => gtb (sub t t3) timeout = false) before /\
    Forall (fun t => gtb (sub t t1) timeout = false) during /\
    levels p = replicate (length before) false
                 ++ true :: replicate (length during) true
                 ++ false :: levels p' /\
    clock p = t3 :: before ++ t1 :: during ++ t2 :: clock p' /\
    d = mul (SFdiv prec emax (mul (sub t2 t1) (of_int 340)) (of_int 2))
            (of_int 100).
Proof.
  intros Hread.
  destruct (read_inversion _ _ _ _ Hread)
    as (t3 & before & Hbefore
        & [(Hv & _)
          |(t1 & during & Hduring
            & [(Hv & _)|(t2 & d' & Hv & Hd & Hlv & Hck)])]);
    [discriminate|discriminate|].
  injection Hv as ->.
  exists t3, t1, t2, before, during.
  repeat split; try assumption.
  rewrite distance_value in Hd. by injection Hd as <-.
Qed.

Lemma distance_sound_witness :
  exists (t3 t1 t2 : float) (before during : list float),
    Forall (fun t => gtb (sub t t3) timeout = false) before /\
    Forall (fun t => gtb (sub t t1) timeout = false) during /\
    [false; true; true; false]
      = replicate (length before) false
          ++ true :: replicate (length during) true ++ false :: [] /\
    [of_int 0; decimal 5 3; decimal 1 2; decimal 15 3; decimal 2 2]
      = t3 :: before ++ t1 :: during ++ t2 :: [] /\
    of_int 170
      = mul (SFdiv prec emax (mul (sub t2 t1) (of_int 340)) (of_int 2))
            (of_int 100).
Proof.
  apply (distance_sound (SonarObj 23 24 INPUT INPUT true)
           (Pi ∅ [] [] [false; true; true; false]
               [of_int 0; decimal 5 3; decimal 1 2; decimal 15 3;
                decimal 2 2])
           (Pi ∅ [] [(23%nat, 15, 1)] [] [])).
  vm_compute. reflexivity.
Defined.

(** [__init__] fails exactly when pigpio does not know one of the two
    GPIOs; otherwise it remembers the modes found, leaves the echo line
    an input and, when the two lines differ, the trigger line an output,
    and touches no other GPIO. *)
Theorem init_sets_modes (p : pi) (trigger echo : nat) :
  (__init__ p trigger echo = None <->
   get_mode trigger p = None \/ get_mode echo p = None) /\
  forall (s : sonar) (p1 : pi),
    __init__ p trigger echo = Some (s, p1) ->
    get_mode trigger p = Some (_trig_mode s) /\
    get_mode echo p = Some (_echo_mode s) /\
    _inited s = true /\
    get_mode echo p1 = Some INPUT /\
    (trigger <> echo -> get_mode trigger p1 = Some OUTPUT) /\
    forall gpio, gpio <> trigger -> gpio <> echo ->
                 get_mode gpio p1 = get_mode gpio p.
Proof.
  unfold __init__, get_mode.
  destruct (modes p !! trigger) as [tm|] eqn:Ht;
    destruct (modes p !! echo) as [em|] eqn:He; simpl.
  - split; [split; [done|by intros [|]]|].
    intros s p1 [= <- <-]. simpl.
    repeat split; try done.
    + by rewrite lookup_insert_eq.
    + intros Hne. rewrite lookup_insert_ne by done.
      by rewrite lookup_insert_eq.
    + intros gpio Hg1 Hg2. by rewrite !lookup_insert_ne by done.
  - split; [split; [by right|done]|done].
  - split; [split; [by left|done]|done].
  - split; [split; [by left|done]|done].
Qed.

Lemma init_sets_modes_witness :
  let p := Pi {[23%nat := 4; 24%nat := 1]} [] [] [] [] in
  let p1 := Pi {[23%nat := OUTPUT; 24%nat := INPUT]}
               [(23%nat, OUTPUT); (24%nat, INPUT)] [] [] [] in
  get_mode 24 p1 = Some INPUT /\ get_mode 23 p1 = Some OUTPUT.
Proof.
  intros p p1.
  destruct (init_sets_modes p 23 24) as [_ H].
  destruct (H (SonarObj 23 24 4 1 true) p1) as (_ & _ & _ & H1 & H2 & _);
    [vm_compute; reflexivity|].
  exact (conj H1 (H2 ltac:(lia))).
Defined.

Lemma reads_effects (n : nat) (s : sonar) (p p' : pi) (vs : list pyval) :
  reads n s p = Some (vs, p') ->
  modes p' = modes p /\ mode_calls p' = mode_calls p /\
  length vs = n /\
  pulses p' = pulses p ++ replicate n (_trig s, 15, 1).
Proof.
  revert p vs. induction n as [|n IH]; intros p vs Hrun.
  - simpl in Hrun. injection Hrun as <- <-. by rewrite app_nil_r.
  - simpl in Hrun.
    destruct (read s p) as [[v p1]|] eqn:Hread; [|done]. simpl in Hrun.
    destruct (reads n s p1) as [[vs' p2]|] eqn:Hreads; [|done].
    simpl in Hrun. injection Hrun as <- <-.
    destruct (read_footprint _ _ _ _ Hread) as (Hm & Hc & Hp & _).
    destruct (IH _ _ Hreads) as (Hm' & Hc' & Hl & Hp').
    repeat split; [congruence | congruence | simpl; lia |].
    rewrite Hp', Hp, <- app_assoc. done.
Qed.

(** A whole session: after [__init__], any number of [read] calls and
    then [cancel], the modes of all GPIOs are those found at the start,
    [set_mode] has been called four times in all (trigger to output, echo
    to input, then both back), and the trigger has been fired once per
    reading. *)
Theorem session_restores_modes (p p1 p2 : pi) (trigger echo : nat)
  (s : sonar) (n : nat) (vs : list pyval) :
  __init__ p trigger echo = Some (s, p1) ->
  reads n s p1 = Some (vs, p2) ->
  modes (cancel s p2).2 = modes p /\
  mode_calls (cancel s p2).2
    = mode_calls p ++ [(trigger, OUTPUT); (echo, INPUT);
                       (trigger, _trig_mode s); (echo, _echo_mode s)] /\
  pulses (cancel s p2).2 = pulses p ++ replicate n (trigger, 15, 1) /\
  length vs = n.
Proof.
  intros Hinit Hreads.
  destruct (reads_effects _ _ _ _ _ Hreads) as (Hm & Hc & Hl & Hp).
  unfold __init__, get_mode in Hinit.
  destruct (modes p !! trigger) as [tm|] eqn:Ht; [|done].
  destruct (modes p !! echo) as [em|] eqn:He; [|done].
  simpl in Hinit. injection Hinit as <- <-.
  unfold cancel. simpl in *. rewrite Hm, Hc, Hp.
  split; [by apply restore_modes|].
  split; [by rewrite <- !app_assoc|]. done.
Qed.

Lemma session_restores_modes_witness :
  let p := Pi {[23%nat := 4; 24%nat := 1]} [] []
              [false; true; false; true; true; false]
              [of_int 0; decimal 5 3; decimal 1 2; decimal 2 2;
               decimal 3 2; decimal 4 2; decimal 45 3; decimal 5 2] in
  let s := SonarObj 23 24 4 1 true in
  let p2 := Pi {[23%nat := OUTPUT; 24%nat := INPUT]}
               [(23%nat, OUTPUT); (24%nat, INPUT)]
               [(23%nat, 15, 1); (23%nat, 15, 1)] [] [] in
  modes (cancel s p2).2 = modes p /\
  pulses (cancel s p2).2 = pulses p ++ replicate 2 (23%nat, 15, 1).
Proof.
  intros p s p2.
  destruct (session_restores_modes p
              (Pi {[23%nat := OUTPUT; 24%nat := INPUT]}
                  [(23%nat, OUTPUT); (24%nat, INPUT)] []
                  [false; true; false; true; true; false]
                  [of_int 0; decimal 5 3; decimal 1 2; decimal 2 2;
                   decimal 3 2; decimal 4 2; decimal 45 3; decimal 5 2])
              p2 23 24 s 2
              [PyFloat (of_int 170);
               PyFloat (S754_finite false 5981343255101441 (-45))])
    as (H1 & _ & H2 & _); [vm_compute; reflexivity | vm_compute; reflexivity |].
  exact (conj H1 H2).
Defined.
